(** * Camoufox profile manager: profile store, launcher and session worker

    A shallow embedding of [main_window.py]: the [ProxyConfig] and [Profile]
    data classes with their JSON (de)serialisation, the persistence functions
    [load_profiles] and [save_profiles], the session worker's [run] and the
    slots of [MainWindow] that touch the profile list, the persisted file and
    the worker handle.

    Python integers are unbounded and are modelled by [Z].  Text is modelled
    by [string]. *)

From Stdlib Require Import ZArith String Ascii List DecimalString Lia Bool.
Import ListNotations.

Open Scope Z_scope.
Open Scope string_scope.

(** ** Exceptions and fallible computations *)

(** The exception classes the modelled code can raise by itself. *)
Inductive exn : Type :=
| TypeError
| ValueError
| OverflowError
| AttributeError
| IndexError
| JSONDecodeError.

Inductive result (A : Type) : Type :=
| Ok (a : A)
| Raise (e : exn).

Arguments Ok {A} a.
Arguments Raise {A} e.

Definition bind {A B : Type} (m : result A) (k : A -> result B) : result B :=
  match m with
  | Ok a => k a
  | Raise e => Raise e
  end.

Declare Scope py_scope.
Notation "x <- m ;; k" := (bind m (fun x => k))
  (at level 61, m at next level, right associativity) : py_scope.
Open Scope py_scope.

Fixpoint mapM {A B : Type} (f : A -> result B) (l : list A) : result (list B) :=
  match l with
  | [] => Ok []
  | x :: r => y <- f x ;; ys <- mapM f r ;; Ok (y :: ys)
  end.

(** ** Python values read from JSON *)

(** A Python float, as far as [int()] and truth testing look at it: not a
    number, an infinity, or the finite value [m * 2^e]. *)
Inductive pyfloat : Type :=
| FNaN
| FInf (negative : bool)
| FFin (m e : Z).

(** What [json.load] can return.  A dict nests in the values it holds and
    keeps its keys in insertion order: it is an association list, read with
    [dict_get], which takes the first binding of a key. *)
#[warnings="-register-all"]
Inductive pyval : Type :=
| JNull
| JBool (b : bool)
| JInt (z : Z)
| JFloat (f : pyfloat)
| JStr (s : string)
| JList (l : list pyval)
| JDict (d : list (string * pyval)).

Definition pydict : Type := list (string * pyval).

Fixpoint dict_get (d : pydict) (k : string) : option pyval :=
  match d with
  | [] => None
  | (k', v) :: r => if String.eqb k' k then Some v else dict_get r k
  end.

(** [d.get(k, default)] *)
Definition py_get (d : pydict) (k : string) (default : pyval) : pyval :=
  match dict_get d k with
  | Some v => v
  | None => default
  end.

(** [d[k] = v] *)
Definition dict_set (k : string) (v : pyval) (d : pydict) : pydict := (k, v) :: d.

(** Truth value of a Python object: [bool(v)], [if v], [not v], [v or w]. *)
Definition truthy (v : pyval) : bool :=
  match v with
  | JNull => false
  | JBool b => b
  | JInt z => negb (z =? 0)%Z
  | JFloat (FFin m _) => negb (m =? 0)%Z
  | JFloat _ => true
  | JStr s => negb (String.eqb s "")
  | JList l => match l with [] => false | _ => true end
  | JDict d => match d with [] => false | _ => true end
  end.

(** [v or w] *)
Definition py_or (v w : pyval) : pyval := if truthy v then v else w.

Definition is_dict (v : pyval) : bool :=
  match v with
  | JDict _ => true
  | _ => false
  end.

(** ** Text helpers *)

(** [str.isspace] on an ASCII character: tab, line feed, vertical tab, form
    feed, carriage return, the four separators 28..31 and the blank. *)
Definition is_space (c : ascii) : bool :=
  let n := Z.of_nat (nat_of_ascii c) in
  ((9 <=? n)%Z && (n <=? 13)%Z) || ((28 <=? n)%Z && (n <=? 32)%Z).

Definition is_digit (c : ascii) : bool :=
  let n := Z.of_nat (nat_of_ascii c) in
  (48 <=? n)%Z && (n <=? 57)%Z.

Definition digit_val (c : ascii) : Z := Z.of_nat (nat_of_ascii c) - 48.

Fixpoint lstrip (s : string) : string :=
  match s with
  | EmptyString => EmptyString
  | String c r => if is_space c then lstrip r else s
  end.

Fixpoint rstrip (s : string) : string :=
  match s with
  | EmptyString => EmptyString
  | String c r =>
      let r' := rstrip r in
      if is_space c && String.eqb r' "" then EmptyString else String c r'
  end.

(** [s.strip()] on ASCII text. *)
Definition strip_ascii (s : string) : string := rstrip (lstrip s).

(** [str(z)] for an integer. *)
Definition str_of_int (z : Z) : string := NilZero.string_of_int (Z.to_int z).

(** ** The [int] constructor *)

(** Default of [sys.get_int_max_str_digits()]. *)
Definition int_max_str_digits : nat := 4300.

(** The digits of a decimal literal: digits with single underscores between
    them.  Returns the value and the number of digits read. *)
Fixpoint scan_digits (s : string) (prev_underscore : bool) (acc : Z) (n : nat)
  : option (Z * nat) :=
  match s with
  | EmptyString => if prev_underscore then None else Some (acc, n)
  | String c r =>
      if is_digit c then scan_digits r false (10 * acc + digit_val c) (S n)
      else if Ascii.eqb c "_"
           then if prev_underscore then None else scan_digits r true acc n
           else None
  end.

Definition scan_literal (s : string) : result Z :=
  match s with
  | String "_" _ => Raise ValueError
  | _ =>
      match scan_digits s false 0 0%nat with
      | Some (v, n) =>
          if (n =? 0)%nat then Raise ValueError
          else if (int_max_str_digits <? n)%nat then Raise ValueError
          else Ok v
      | None => Raise ValueError
      end
  end.

(** The blanks [int] skips round an ASCII literal: tab, line feed, vertical
    tab, form feed, carriage return and the space.  The separators 28..31,
    which [str.strip] removes, are not among them. *)
Definition is_blank (c : ascii) : bool :=
  let n := Z.of_nat (nat_of_ascii c) in
  ((9 <=? n)%Z && (n <=? 13)%Z) || (n =? 32)%Z.

Fixpoint skip_blanks (s : string) : string :=
  match s with
  | EmptyString => EmptyString
  | String c r => if is_blank c then skip_blanks r else s
  end.

Fixpoint drop_blanks (s : string) : string :=
  match s with
  | EmptyString => EmptyString
  | String c r =>
      let r' := drop_blanks r in
      if is_blank c && String.eqb r' "" then EmptyString else String c r'
  end.

(** [int(s)] on ASCII text: surrounding blanks, an optional sign, a
    literal. *)
Definition int_of_ascii (s : string) : result Z :=
  match drop_blanks (skip_blanks s) with
  | String "+" r => scan_literal r
  | String "-" r => v <- scan_literal r ;; Ok (- v)
  | t => scan_literal t
  end.

(** [int(f)] for a float: truncation towards zero. *)
Definition int_of_float (f : pyfloat) : result Z :=
  match f with
  | FNaN => Raise ValueError
  | FInf _ => Raise OverflowError
  | FFin m e => if (0 <=? e)%Z then Ok (m * 2 ^ e) else Ok (Z.quot m (2 ^ (- e)))
  end.

Section Program.

(** The text functions of the interpreter, [s.strip()] and [int(s)]: they
    follow the Unicode character tables (white space, decimal digits), which
    the program does not hold.  [strip_ascii] and [int_of_ascii] are what
    they do on ASCII text. *)
Variable strip : string -> string.
Variable int_of_str : string -> result Z.

(** [int(v)] *)
Definition py_int (v : pyval) : result Z :=
  match v with
  | JInt z => Ok z
  | JBool b => Ok (if b then 1 else 0)
  | JFloat f => int_of_float f
  | JStr s => int_of_str s
  | JNull | JList _ | JDict _ => Raise TypeError
  end.

(** ** Data models *)

(** The data classes.  Their annotations are not enforced: [from_dict] stores
    [name], [persistent_dir], [host], [username] and [password] as it finds
    them, so these fields hold a Python value; the numeric and boolean fields
    are always built through [int] and [bool]. *)
Record ProxyConfig : Type := mkProxyConfig {
  host : pyval;
  port : Z;
  username : pyval;
  password : pyval
}.

Record Profile : Type := mkProfile {
  name : pyval;
  viewport_width : Z;
  viewport_height : Z;
  fullscreen : bool;
  persistent_dir : pyval;
  use_geoip : bool;
  proxy : ProxyConfig
}.

(** [ProxyConfig()] and [Profile()] *)
Definition ProxyConfig_default : ProxyConfig :=
  mkProxyConfig (JStr "") 0 (JStr "") (JStr "").

Definition Profile_default : Profile :=
  mkProfile (JStr "Profile") 1280 800 false (JStr "") false ProxyConfig_default.

Definition set_persistent_dir (p : Profile) (v : pyval) : Profile :=
  mkProfile (name p) (viewport_width p) (viewport_height p) (fullscreen p)
            v (use_geoip p) (proxy p).

(** [asdict(self.proxy)] *)
Definition proxy_asdict (c : ProxyConfig) : pydict :=
  [ ("host", host c); ("port", JInt (port c));
    ("username", username c); ("password", password c) ].

(** [Profile.to_dict] *)
Definition to_dict (p : Profile) : pyval :=
  JDict
    [ ("name", name p);
      ("viewport_width", JInt (viewport_width p));
      ("viewport_height", JInt (viewport_height p));
      ("fullscreen", JBool (fullscreen p));
      ("persistent_dir", persistent_dir p);
      ("use_geoip", JBool (use_geoip p));
      ("proxy", JDict (proxy_asdict (proxy p))) ].

(** [posixpath.join] of two components, the [os.path.join] of a POSIX host. *)
Definition ends_with_slash (s : string) : bool :=
  match String.get (String.length s - 1) s with
  | Some c => Ascii.eqb c "/"
  | None => false
  end.

Definition posixpath_join (a b : string) : string :=
  if String.prefix "/" b then b
  else if String.eqb a "" || ends_with_slash a then a ++ b
  else a ++ "/" ++ b.

(** The fixed root of the default storage directory, [C:] followed by a
    backslash. *)
Definition storage_root : string := "C:" ++ String (ascii_of_nat 92) "".

(** What an external call does: it returns, or it raises an [Exception]
    whose text is [msg]. *)
Inductive outcome (A : Type) : Type :=
| Returns (a : A)
| Raises (msg : string).

#[global] Arguments Returns {A} a.
#[global] Arguments Raises {A} msg.

(** The persisted file holds either the text [json.dump] wrote for a value,
    which [json.load] reads back as that value, or any other text. *)
Inductive file_text : Type :=
| Dumped (v : pyval)
| Text (s : string).

(** The interpreter and the platform: [os.path.join], [str] of a value that
    is not already a string, and [json.load] on a text. *)
Variable path_join : string -> string -> string.
Variable py_repr : pyval -> string.
Variable json_load : string -> result pyval.

(** [f"{v}"] *)
Definition format_value (v : pyval) : string :=
  match v with
  | JStr s => s
  | _ => py_repr v
  end.

(** [os.path.join("C:\\", name)]: a component that is not a string is a
    [TypeError]. *)
Definition default_storage (nm : pyval) : result pyval :=
  match nm with
  | JStr n => Ok (JStr (path_join storage_root n))
  | _ => Raise TypeError
  end.

(** [ProxyConfig.to_proxy_dict] *)
Definition to_proxy_dict (c : ProxyConfig) : option pydict :=
  if negb (truthy (host c)) || negb (truthy (JInt (port c))) then None
  else
    let d := [ ("server",
                JStr ("http://" ++ format_value (host c) ++ ":" ++ str_of_int (port c))) ] in
    let d := if truthy (username c) then (d ++ [ ("username", username c) ])%list else d in
    let d := if truthy (password c) then (d ++ [ ("password", password c) ])%list else d in
    Some d.

(** [Profile.from_dict] *)
Definition from_dict (v : pyval) : result Profile :=
  match v with
  | JDict d =>
      let raw_proxy := py_get d "proxy" (JDict []) in
      let raw_proxy := match raw_proxy with JDict r => r | _ => [] end in
      let name := py_get d "name" (JStr "Profile") in
      let persistent_dir := py_get d "persistent_dir" (JStr "") in
      persistent_dir <-
        (if negb (truthy persistent_dir) then default_storage name
         else Ok persistent_dir) ;;
      viewport_width <- py_int (py_get d "viewport_width" (JInt 1280)) ;;
      viewport_height <- py_int (py_get d "viewport_height" (JInt 800)) ;;
      let fullscreen := truthy (py_get d "fullscreen" (JBool false)) in
      let use_geoip := truthy (py_get d "use_geoip" (JBool false)) in
      let host := py_get raw_proxy "host" (JStr "") in
      port <- py_int (py_or (py_get raw_proxy "port" (JInt 0)) (JInt 0)) ;;
      let username := py_get raw_proxy "username" (JStr "") in
      let password := py_get raw_proxy "password" (JStr "") in
      Ok (mkProfile name viewport_width viewport_height fullscreen
                    persistent_dir use_geoip
                    (mkProxyConfig host port username password))
  | _ => Raise AttributeError
  end.

(** ** Persistence *)

(** [json.load(f)] *)
Definition load_text (t : file_text) : result pyval :=
  match t with
  | Dumped v => Ok v
  | Text s => json_load s
  end.

(** [for x in raw]: a list gives its items, a dict its keys, a string its
    characters; nothing else can be iterated. *)
Definition py_iter (raw : pyval) : result (list pyval) :=
  match raw with
  | JList l => Ok l
  | JDict d => Ok (map (fun kv => JStr (fst kv)) d)
  | JStr s => Ok (map (fun c => JStr (String c "")) (list_ascii_of_string s))
  | _ => Raise TypeError
  end.

(** [load_profiles]; the argument is the content of [profiles.json], [None]
    when the file does not exist. *)
Definition load_profiles (file : option file_text) : result (list Profile) :=
  match file with
  | None => Ok []
  | Some t =>
      raw <- load_text t ;;
      items <- py_iter raw ;;
      mapM from_dict items
  end.

(** [save_profiles]: the new content of [profiles.json]. *)
Definition save_profiles (profiles : list Profile) : option file_text :=
  Some (Dumped (JList (map to_dict profiles))).


(** ** Worker thread *)

(** [CAMOUFOX_OK]: whether the import of the library succeeded. *)
Variable CAMOUFOX_OK : bool.

(** The three signals of [CamoufoxWorker], with the text they carry. *)
Inductive signal : Type :=
| started_ok (msg : string)
| error (msg : string)
| stopped (msg : string).

(** The keyword arguments handed to [Camoufox]; a key that is not set is
    [None]. *)
Record Options : Type := mkOptions {
  headless : bool;
  window : Z * Z;
  persistent_context : option bool;
  user_data_dir : option string;
  opt_proxy : option pydict;
  geoip : option bool
}.

Inductive call : Type :=
| Cmakedirs (dir : pyval)
| Cabspath (dir : pyval)
| CCamoufox (opts : Options)
| Cpages
| Cclose_page (i : nat)
| Cnew_page
| Cset_viewport_size (W H : Z)
| Cpress_F11
| Csleep
| Cctx_close
| Cctx_exit.

(** What one run of the worker does, in order: the signals it emits and the
    calls it makes outside the program. *)
Inductive action : Type :=
| Emit (s : signal)
| Call (c : call).

(** The answers of the outside world to one run: the file system, the
    browser library, and the main thread, which sets the stop flag.
    [stop_requested k] is the value of [self._stop] at the [k]-th test of the
    idle loop and [sleep k] the outcome of the [k]-th [time.sleep]. *)
Record Env : Type := mkEnv {
  makedirs : pyval -> outcome unit;
  abspath : pyval -> outcome string;
  Camoufox_enter : Options -> outcome unit;
  ctx_pages : outcome nat;
  new_page : outcome unit;
  stop_requested : nat -> bool;
  sleep : nat -> outcome unit;
  ctx_close : outcome unit
}.

(** [CamoufoxWorker]; [isRunning] is the thread's state as [QThread] reports
    it. *)
Record CamoufoxWorker : Type := mkWorker {
  w_profile : Profile;
  launch_size : option (Z * Z);
  w_stop : bool;
  isRunning : bool
}.

(** A computation of the worker: the actions done so far and how it ends. *)
Definition io (A : Type) : Type := (list action * outcome A)%type.

Definition io_ret {A : Type} (a : A) : io A := ([], Returns a).

Definition io_bind {A B : Type} (m : io A) (k : A -> io B) : io B :=
  match m with
  | (l, Returns a) => let (l', r) := k a in ((l ++ l')%list, r)
  | (l, Raises e) => (l, Raises e)
  end.

Notation "x <~ m ;; k" := (io_bind m (fun x => k))
  (at level 61, m at next level, right associativity) : py_scope.

Definition do_call {A : Type} (c : call) (o : outcome A) : io A := ([Call c], o).

(** A call under [try: ... except Exception: pass]. *)
Definition call_ignored (c : call) : io unit := ([Call c], Returns tt).

Definition emit (s : signal) : io unit := ([Emit s], Returns tt).

(** [if px:] *)
Definition px_truthy (px : option pydict) : bool :=
  match px with
  | Some d => truthy (JDict d)
  | None => false
  end.

Section Worker.

Variable env : Env.
Variable self : CamoufoxWorker.

(** [run], from the start of the [try] block to the assignment of
    [self._ctx]; returns [(W, H)]. *)
Definition open_session : io (Z * Z) :=
  let profile := w_profile self in
  let '(W, H) :=
    match launch_size self with
    | Some size => size
    | None => (viewport_width profile, viewport_height profile)
    end in
  let opts := mkOptions false (W + 2, H + 88) None None None None in
  opts <~ (if truthy (persistent_dir profile) then
             _ <~ do_call (Cmakedirs (persistent_dir profile))
                          (makedirs env (persistent_dir profile)) ;;
             dir <~ do_call (Cabspath (persistent_dir profile))
                            (abspath env (persistent_dir profile)) ;;
             io_ret (mkOptions (headless opts) (window opts) (Some true) (Some dir)
                               (opt_proxy opts) (geoip opts))
           else io_ret opts) ;;
  let px := to_proxy_dict (proxy profile) in
  let opts :=
    if px_truthy px then
      mkOptions (headless opts) (window opts) (persistent_context opts)
                (user_data_dir opts) px
                (if use_geoip profile then Some true else None)
    else opts in
  _ <~ do_call (CCamoufox opts) (Camoufox_enter env opts) ;;
  io_ret (W, H).

(** [for extra in pages[1:]: try: extra.close() ...] *)
Definition close_extras (pages : nat) : io unit :=
  (map (fun i => Call (Cclose_page i)) (seq 1 (pages - 1)), Returns tt).

(** [run], from the listing of the pages to [started_ok]. *)
Definition prepare_page (WH : Z * Z) : io unit :=
  let profile := w_profile self in
  pages <~ do_call Cpages (ctx_pages env) ;;
  _ <~ (if (0 <? pages)%nat then close_extras pages
        else do_call Cnew_page (new_page env)) ;;
  _ <~ call_ignored (Cset_viewport_size (fst WH) (snd WH)) ;;
  _ <~ (if fullscreen profile then call_ignored Cpress_F11 else io_ret tt) ;;
  emit (started_ok ("Session started for '" ++ format_value (name profile) ++ "'.")).

(** [while not self._stop: time.sleep(0.2)], from the [k]-th test on, for at
    most [fuel] tests. *)
Fixpoint idle (fuel k : nat) : option (io unit) :=
  match fuel with
  | O => None
  | S fuel' =>
      if stop_requested env k then Some (io_ret tt)
      else
        match sleep env k with
        | Raises e => Some ([Call Csleep], Raises e)
        | Returns _ =>
            match idle fuel' (S k) with
            | Some (l, r) => Some (Call Csleep :: l, r)
            | None => None
            end
        end
  end.

(** The [finally] block; [ctx_set] tells whether [self._ctx] was assigned. *)
Definition teardown (ctx_set : bool) : list action :=
  ((if ctx_set then
      match ctx_close env with
      | Returns _ => [Call Cctx_close; Call Cctx_exit]
      | Raises e =>
          [Call Cctx_close; Emit (error ("Error while stopping session: " ++ e))]
      end
    else []) ++
   [Emit (stopped ("Session stopped for '" ++ format_value (name (w_profile self)) ++ "'."))])%list.

(** The [except Exception as e] handler. *)
Definition on_exception (e : string) : list action :=
  [Emit (error ("Failed to start Camoufox: " ++ e))].

(** [CamoufoxWorker.run]: the actions of the run, [None] when the idle loop
    is still turning after [fuel] tests. *)
Definition run (fuel : nat) : option (list action) :=
  if negb CAMOUFOX_OK then
    Some [Emit (error "Camoufox not available. Install with: pip install -U 'camoufox[geoip]' and run 'camoufox fetch'.")]
  else
    match open_session with
    | (l1, Raises e) => Some (l1 ++ on_exception e ++ teardown false)%list
    | (l1, Returns WH) =>
        match prepare_page WH with
        | (l2, Raises e) => Some (l1 ++ l2 ++ on_exception e ++ teardown true)%list
        | (l2, Returns _) =>
            match idle fuel 0 with
            | None => None
            | Some (l3, Raises e) =>
                Some (l1 ++ l2 ++ l3 ++ on_exception e ++ teardown true)%list
            | Some (l3, Returns _) => Some (l1 ++ l2 ++ l3 ++ teardown true)%list
            end
        end
    end.

End Worker.

(** [request_stop] *)
Definition request_stop (w : CamoufoxWorker) : CamoufoxWorker :=
  mkWorker (w_profile w) (launch_size w) true (isRunning w).

(** The number of [stopped] signals among the actions of a run. *)
Definition is_stopped (a : action) : bool :=
  match a with
  | Emit (stopped _) => true
  | _ => false
  end.

Definition count_stopped (l : list action) : nat :=
  List.length (filter is_stopped l).

(** ** MainWindow controller *)

(** The content of the form's widgets when a slot reads them. *)
Record Form : Type := mkForm {
  nameEdit : string;
  spinW : Z;
  spinH : Z;
  fullscreenCheck : bool;
  proxyHostEdit : string;
  proxyPortSpin : Z;
  proxyUserEdit : string;
  proxyPassEdit : string;
  geoipCheck : bool;
  storageEdit : string
}.

(** The state the controller owns, with the persisted file.  [worker] is
    [self.worker]; [retired] keeps the worker objects created before it, the
    newest first, as they were when [self.worker] stopped naming them.
    [running] is the argument of the last [_set_running], [statusbar] the
    last status message and [dialogs] the titles of the message boxes shown
    so far.  The list widget belongs to the toolkit: its current row is an
    argument of the slots that read it, and a selection signal it sends is a
    step of its own ([_on_select_profile]).

    The worker is given the list's own [Profile] object, not a copy.
    [worker_slot] is the position of that object in the list, as long as it
    is in the list: what [_gather_form] writes into the object at that
    position shows in [self.worker.profile] too. *)
Record MainWindow : Type := mkWindow {
  profiles : list Profile;
  current_index : Z;
  worker : option CamoufoxWorker;
  retired : list CamoufoxWorker;
  file : option file_text;
  statusbar : string;
  dialogs : list string;
  running : bool;
  worker_slot : option nat
}.

Definition set_profiles (st : MainWindow) (ps : list Profile) : MainWindow :=
  mkWindow ps (current_index st) (worker st) (retired st) (file st)
           (statusbar st) (dialogs st) (running st) (worker_slot st).

Definition set_current_index (st : MainWindow) (i : Z) : MainWindow :=
  mkWindow (profiles st) i (worker st) (retired st) (file st)
           (statusbar st) (dialogs st) (running st) (worker_slot st).

Definition set_worker (st : MainWindow) (w : option CamoufoxWorker) : MainWindow :=
  mkWindow (profiles st) (current_index st) w (retired st) (file st)
           (statusbar st) (dialogs st) (running st) (worker_slot st).

Definition set_file (st : MainWindow) (f : option file_text) : MainWindow :=
  mkWindow (profiles st) (current_index st) (worker st) (retired st) f
           (statusbar st) (dialogs st) (running st) (worker_slot st).

(** [self.statusbar.showMessage(msg, ...)] *)
Definition showMessage (msg : string) (st : MainWindow) : MainWindow :=
  mkWindow (profiles st) (current_index st) (worker st) (retired st) (file st)
           msg (dialogs st) (running st) (worker_slot st).

(** A [QMessageBox] with the given title. *)
Definition message_box (title : string) (st : MainWindow) : MainWindow :=
  mkWindow (profiles st) (current_index st) (worker st) (retired st) (file st)
           (statusbar st) (dialogs st ++ [title])%list (running st) (worker_slot st).

Definition _set_running (b : bool) (st : MainWindow) : MainWindow :=
  mkWindow (profiles st) (current_index st) (worker st) (retired st) (file st)
           (statusbar st) (dialogs st) b (worker_slot st).

(** A worker with other values in its [Profile] object. *)
Definition with_profile (p : Profile) (w : CamoufoxWorker) : CamoufoxWorker :=
  mkWorker p (launch_size w) (w_stop w) (isRunning w).

(** Replace the item at position [n]. *)
Fixpoint update_nth {A : Type} (n : nat) (x : A) (l : list A) : list A :=
  match l, n with
  | [], _ => []
  | _ :: r, O => x :: r
  | y :: r, S n' => y :: update_nth n' x r
  end.

Fixpoint remove_nth {A : Type} (n : nat) (l : list A) : list A :=
  match l, n with
  | [], _ => []
  | _ :: r, O => r
  | y :: r, S n' => y :: remove_nth n' r
  end.

(** A Python list index counts from the end when negative; [None] when it is
    out of range. *)
Definition py_index {A : Type} (l : list A) (i : Z) : option nat :=
  let n := Z.of_nat (List.length l) in
  let j := if (i <? 0)%Z then i + n else i in
  if (0 <=? j)%Z && (j <? n)%Z then Some (Z.to_nat j) else None.

(** [l[i] = x] *)
Definition list_set {A : Type} (l : list A) (i : Z) (x : A) : result (list A) :=
  match py_index l i with
  | Some j => Ok (update_nth j x l)
  | None => Raise IndexError
  end.

(** [l[i]] *)
Definition list_get {A : Type} (l : list A) (i : Z) : result A :=
  match py_index l i with
  | Some j => match nth_error l j with Some x => Ok x | None => Raise IndexError end
  | None => Raise IndexError
  end.

(** [del l[i]] *)
Definition list_del {A : Type} (l : list A) (i : Z) : result (list A) :=
  match py_index l i with
  | Some j => Ok (remove_nth j l)
  | None => Raise IndexError
  end.

(** [self.worker = CamoufoxWorker(prof, ...)], with [prof] the object in the
    slot of the current index: the object named before is kept in
    [retired]. *)
Definition new_worker (w : CamoufoxWorker) (st : MainWindow) : MainWindow :=
  mkWindow (profiles st) (current_index st) (Some w)
           (match worker st with Some old => old :: retired st | None => retired st end)
           (file st) (statusbar st) (dialogs st) (running st)
           (py_index (profiles st) (current_index st)).

(** The fields of the [Profile] object at position [i] are assigned: the
    list shows the new values, and so does the worker when it holds that
    object. *)
Definition write_in_place (i : nat) (p : Profile) (st : MainWindow) : MainWindow :=
  mkWindow (update_nth i p (profiles st)) (current_index st)
           (match worker_slot st with
            | Some k => if (k =? i)%nat then option_map (with_profile p) (worker st)
                        else worker st
            | None => worker st
            end)
           (retired st) (file st) (statusbar st) (dialogs st) (running st)
           (worker_slot st).

(** The object at position [j] leaves the list: a worker that holds it is no
    longer tied to a position, and the positions after [j] move down. *)
Definition row_removed (j : nat) (st : MainWindow) : MainWindow :=
  mkWindow (profiles st) (current_index st) (worker st) (retired st) (file st)
           (statusbar st) (dialogs st) (running st)
           (match worker_slot st with
            | Some k => if (k =? j)%nat then None
                        else if (j <? k)%nat then Some (k - 1)%nat else Some k
            | None => None
            end).

Definition _current (st : MainWindow) : option Profile :=
  if (0 <=? current_index st)%Z && (current_index st <? Z.of_nat (List.length (profiles st)))%Z
  then nth_error (profiles st) (Z.to_nat (current_index st))
  else None.

(** [s.strip() or default] *)
Definition strip_or (s default : string) : string :=
  let t := strip s in if String.eqb t "" then default else t.

(** The field values [_gather_form] assigns; every field is assigned. *)
Definition gathered (form : Form) : Profile :=
  let name := strip_or (nameEdit form) "Profile" in
  mkProfile (JStr name) (spinW form) (spinH form) (fullscreenCheck form)
            (JStr (strip_or (storageEdit form) (path_join storage_root name)))
            (geoipCheck form)
            (mkProxyConfig (JStr (strip (proxyHostEdit form))) (proxyPortSpin form)
                           (JStr (strip (proxyUserEdit form)))
                           (JStr (strip (proxyPassEdit form)))).

(** [_gather_form] writes into the selected profile object, which stays in
    the list, or into a fresh [Profile()] when nothing is selected. *)
Definition _gather_form (form : Form) (st : MainWindow) : Profile * MainWindow :=
  let p := gathered form in
  match _current st with
  | Some _ => (p, write_in_place (Z.to_nat (current_index st)) p st)
  | None => (p, st)
  end.

(** Before [self.profiles[self.current_index] = p], with [p] from
    [_gather_form]: when a profile is selected [p] is the object already in
    the slot; otherwise [p] is a new object, and the object it replaces leaves
    the list, so that a worker holding that one is no longer tied to the
    slot. *)
Definition taken_over (st : MainWindow) : MainWindow :=
  mkWindow (profiles st) (current_index st) (worker st) (retired st) (file st)
           (statusbar st) (dialogs st) (running st)
           (match _current st, py_index (profiles st) (current_index st), worker_slot st with
            | None, Some j, Some k => if (j =? k)%nat then None else Some k
            | _, _, slot => slot
            end).

(** The window after [_gather_form], as the assignment of the slot finds
    it, apart from the list: the worker shows what was written into its
    object, or is untied from a slot that is about to get a new object. *)
Definition rebound (form : Form) (st : MainWindow) : MainWindow :=
  mkWindow (profiles st) (current_index st)
           (match _current st, worker_slot st with
            | Some _, Some k =>
                if (k =? Z.to_nat (current_index st))%nat
                then option_map (with_profile (gathered form)) (worker st)
                else worker st
            | _, _ => worker st
            end)
           (retired st) (file st) (statusbar st) (dialogs st) (running st)
           (match _current st, py_index (profiles st) (current_index st), worker_slot st with
            | None, Some j, Some k => if (j =? k)%nat then None else Some k
            | _, _, slot => slot
            end).

(** *** Slots *)

Definition _on_select_profile (currentRow : Z) (st : MainWindow) : MainWindow :=
  set_current_index st currentRow.

Definition _new_profile (st : MainWindow) : MainWindow :=
  let name := "Profile " ++ str_of_int (Z.of_nat (List.length (profiles st)) + 1) in
  let p := mkProfile (JStr name) 1280 800 false (JStr "") false ProxyConfig_default in
  let p := set_persistent_dir p (JStr (path_join storage_root name)) in
  let st := set_profiles st (profiles st ++ [p])%list in
  let st := set_file st (save_profiles (profiles st)) in
  showMessage "New profile created" st.

Definition _delete_profile (currentRow : Z) (confirmed : bool) (st : MainWindow)
  : result MainWindow :=
  if (currentRow <? 0)%Z then Ok st
  else
    p <- list_get (profiles st) currentRow ;;
    let st := message_box "Confirm Delete" st in
    if negb confirmed then Ok st
    else
      ps <- list_del (profiles st) currentRow ;;
      let st := set_profiles (row_removed (Z.to_nat currentRow) st) ps in
      let st := set_file st (save_profiles (profiles st)) in
      let st := set_current_index st (-1) in
      Ok (showMessage ("Deleted '" ++ format_value (name p) ++ "'") st).

Definition _save_changes (form : Form) (st : MainWindow) : result MainWindow :=
  if (current_index st =? -1)%Z then Ok (_new_profile st)
  else
    let '(p, st) := _gather_form form st in
    ps <- list_set (profiles st) (current_index st) p ;;
    let st := set_profiles (taken_over st) ps in
    let st := set_file st (save_profiles (profiles st)) in
    Ok (showMessage "Profile saved" st).

Definition worker_running (st : MainWindow) : bool :=
  match worker st with
  | Some w => isRunning w
  | None => false
  end.

(** [_launch]; [screen] is the available geometry of the primary screen. *)
Definition _launch (form : Form) (screen : Z * Z) (st : MainWindow) : result MainWindow :=
  if worker_running st then Ok (showMessage "A session is already running" st)
  else if (current_index st =? -1)%Z then Ok (message_box "No profile" st)
  else
    let '(prof, st) := _gather_form form st in
    ps <- list_set (profiles st) (current_index st) prof ;;
    let st := set_profiles (taken_over st) ps in
    let st := set_file st (save_profiles (profiles st)) in
    if negb CAMOUFOX_OK then Ok (message_box "Camoufox not available" st)
    else
      let size :=
        if fullscreen prof then (fst screen, snd screen)
        else (viewport_width prof, viewport_height prof) in
      let st := new_worker (mkWorker prof (Some size) false true) st in
      Ok (_set_running true st).

(** [_stop]; [finished] tells whether the thread ended during the bounded
    [wait]. *)
Definition _stop (finished : bool) (st : MainWindow) : MainWindow :=
  match worker st with
  | Some w =>
      if isRunning w then
        let w := request_stop w in
        let w := mkWorker (w_profile w) (launch_size w) (w_stop w)
                          (if finished then false else isRunning w) in
        showMessage "Stopping session…" (set_worker st (Some w))
      else showMessage "No session to stop" st
  | None => showMessage "No session to stop" st
  end.

Definition _on_stopped (msg : string) (st : MainWindow) : MainWindow :=
  _set_running false (showMessage msg st).

(** The thread of [self.worker] returns from [run]. *)
Definition thread_finished (st : MainWindow) : MainWindow :=
  match worker st with
  | Some w => set_worker st (Some (mkWorker (w_profile w) (launch_size w) (w_stop w) false))
  | None => st
  end.

(** What can happen to the window, with what the toolkit supplies. *)
Inductive event : Type :=
| EvSelect (currentRow : Z)
| EvNew
| EvDelete (currentRow : Z) (confirmed : bool)
| EvSave (form : Form)
| EvLaunch (form : Form) (screen : Z * Z)
| EvStop (finished : bool)
| EvStopped (msg : string)
| EvThreadFinished.

Definition step (ev : event) (st : MainWindow) : result MainWindow :=
  match ev with
  | EvSelect row => Ok (_on_select_profile row st)
  | EvNew => Ok (_new_profile st)
  | EvDelete row confirmed => _delete_profile row confirmed st
  | EvSave form => _save_changes form st
  | EvLaunch form screen => _launch form screen st
  | EvStop finished => Ok (_stop finished st)
  | EvStopped msg => Ok (_on_stopped msg st)
  | EvThreadFinished => Ok (thread_finished st)
  end.

(** The window as [__init__] leaves it. *)
Definition init (file : option file_text) : result MainWindow :=
  ps <- load_profiles file ;;
  Ok (mkWindow ps (-1) None [] file "Ready" [] false None).

(** The states the window goes through from [__init__] on. *)
Inductive reachable : MainWindow -> Prop :=
| reach_init : forall file st, init file = Ok st -> reachable st
| reach_step : forall ev st st', reachable st -> step ev st = Ok st' -> reachable st'.

(** The worker objects whose thread is running. *)
Definition active_workers (st : MainWindow) : list CamoufoxWorker :=
  filter isRunning
         (match worker st with Some w => w :: retired st | None => retired st end).

(** Every worker object that [self.worker] no longer names has finished. *)
Definition retired_finished (st : MainWindow) : Prop :=
  Forall (fun w => isRunning w = false) (retired st).

(** ** Sample values *)

(** A host to run the examples on.  [str] is given on the scalars the
    examples print; floats and containers are not printed there and get the
    empty text.  [json.load] is given on the empty array and the empty
    object; the other texts of the examples are not JSON and are rejected. *)
Definition str_of_scalar (v : pyval) : string :=
  match v with
  | JNull => "None"
  | JBool true => "True"
  | JBool false => "False"
  | JInt z => str_of_int z
  | JStr s => s
  | JFloat _ | JList _ | JDict _ => ""
  end.

Definition json_load_sample (s : string) : result pyval :=
  if String.eqb s "[]" then Ok (JList [])
  else if String.eqb s "{}" then Ok (JDict [])
  else Raise JSONDecodeError.

(** A path, for [os.makedirs] and [os.path.abspath]; the sample paths are
    absolute and normal already. *)
Definition sample_path {A : Type} (v : pyval) (k : string -> A) : outcome A :=
  match v with
  | JStr s => Returns (k s)
  | _ => Raises "expected str, bytes or os.PathLike object"
  end.

(** An outside world in which every call returns, the browser shows one
    page, and the stop flag is seen set at the test numbered [stop_at]. *)
Definition quiet_env (stop_at : nat) : Env :=
  mkEnv (fun v => sample_path v (fun _ => tt))
        (fun v => sample_path v (fun s => s))
        (fun _ => Returns tt)
        (Returns 1%nat)
        (Returns tt)
        (fun k => (stop_at <=? k)%nat)
        (fun _ => Returns tt)
        (Returns tt).

Definition sample_proxy : ProxyConfig :=
  mkProxyConfig (JStr "proxy.local") 8080 (JStr "alice") (JStr "").

Definition sample_profile : Profile :=
  mkProfile (JStr "Work") 1280 800 false (JStr "/data/work") true sample_proxy.

(** The same profile with no storage directory. *)
Definition sample_unset : Profile := set_persistent_dir sample_profile (JStr "").

Definition sample_worker : CamoufoxWorker :=
  mkWorker sample_profile (Some (1280, 800)) false true.

(** A window with one profile, selected, and no session. *)
Definition sample_window : MainWindow :=
  mkWindow [sample_profile] 0 None [] (save_profiles [sample_profile]) "Ready" [] false
           None.

(** The same window while a session runs; the worker holds the profile of
    row 0. *)
Definition sample_window_running : MainWindow :=
  mkWindow [sample_profile] 0 (Some sample_worker) [] (save_profiles [sample_profile])
           "Ready" [] false (Some 0%nat).

(** The same window with no row selected. *)
Definition sample_window_unselected : MainWindow := set_current_index sample_window (-1).

(** The form after the name was edited. *)
Definition sample_form : Form :=
  mkForm "Renamed" 1280 800 false "proxy.local" 8080 "alice" "" true "/data/work".

(** A record whose proxy entry is a string. *)
Definition record_proxy_text : pydict :=
  [ ("name", JStr "Work"); ("proxy", JStr "proxy.local:8080") ].

(** A record whose port is null. *)
Definition record_port_null : pydict :=
  [ ("name", JStr "Work");
    ("proxy", JDict [ ("host", JStr "proxy.local"); ("port", JNull) ]) ].

(** A record whose port is a text that is not a number. *)
Definition record_port_text : pydict :=
  [ ("name", JStr "Work");
    ("proxy", JDict [ ("host", JStr "proxy.local"); ("port", JStr "abc") ]) ].

(** A record whose port is the float infinity, which [json.load] reads from
    the text [Infinity]. *)
Definition record_port_infinity : pydict :=
  [ ("name", JStr "Work");
    ("proxy", JDict [ ("host", JStr "proxy.local"); ("port", JFloat (FInf false)) ]) ].

(** The size a launch works from: the available geometry of the screen when
    the profile is full screen, its viewport otherwise. *)
Definition effective_size (prof : Profile) (screen : Z * Z) : Z * Z :=
  if fullscreen prof then (fst screen, snd screen)
  else (viewport_width prof, viewport_height prof).

(** At its [k]-th test the idle loop ends: the stop flag is seen set, or
    [sleep] raises. *)
Definition loop_exits (env : Env) (k : nat) : Prop :=
  stop_requested env k = true \/ exists e, sleep env k = Raises e.

(** ** Measures for the further properties *)

(** A profile that [from_dict] reads back from [to_dict] as it is: its
    storage directory counts as true, or is the default for its name. *)
Definition storable (p : Profile) : Prop :=
  truthy (persistent_dir p) = true \/
  exists n, name p = JStr n /\ persistent_dir p = JStr (path_join storage_root n).

(** The number of actions of a run that satisfy a test. *)
Definition count_if (f : action -> bool) (l : list action) : nat :=
  List.length (filter f l).

Definition is_started (a : action) : bool :=
  match a with
  | Emit (started_ok _) => true
  | _ => false
  end.

Definition is_error (a : action) : bool :=
  match a with
  | Emit (error _) => true
  | _ => false
  end.

Definition is_close (a : action) : bool :=
  match a with
  | Call Cctx_close => true
  | _ => false
  end.

(** A call other than the closing of the session. *)
Definition plain_call (a : action) : bool :=
  match a with
  | Call Cctx_close | Call Cctx_exit => false
  | Call _ => true
  | Emit _ => false
  end.

(** [self._ctx] was assigned: the library's context manager was entered. *)
Definition session_opened (env : Env) (self : CamoufoxWorker) : bool :=
  match snd (open_session env self) with
  | Returns _ => true
  | Raises _ => false
  end.

(** The page was prepared and [started_ok] emitted. *)
Definition session_started (env : Env) (self : CamoufoxWorker) : bool :=
  match open_session env self with
  | (_, Returns WH) =>
      match snd (prepare_page env self WH) with
      | Returns _ => true
      | Raises _ => false
      end
  | (_, Raises _) => false
  end.

(** The keys [from_dict] reads in a record, and in its proxy entry. *)
Definition profile_keys : list string :=
  [ "proxy"; "name"; "persistent_dir"; "viewport_width"; "viewport_height";
    "fullscreen"; "use_geoip" ].

Definition proxy_keys : list string := [ "host"; "port"; "username"; "password" ].

(** The file reloads to the list in memory, and the list can be stored. *)
Definition in_step_with_disk (st : MainWindow) : Prop :=
  load_profiles (file st) = Ok (profiles st) /\ Forall storable (profiles st).

(** The proxy entry [from_dict] works from: the dict under [proxy], or an
    empty one. *)
Definition raw_proxy_of (d : pydict) : pydict :=
  match py_get d "proxy" (JDict []) with
  | JDict r => r
  | _ => []
  end.



(** ** Further sample values *)

(** An array of two records: the first loads, the second has a port that is
    not a number. *)
Definition sample_records : list pyval :=
  [ JDict [ ("name", JStr "Work") ]; JDict record_port_text ].

(** A record whose name is a number and that gives no storage directory. *)
Definition record_name_number : pydict := [ ("name", JInt 5) ].

(** A record with a key that [from_dict] does not know. *)
Definition record_with_note : pydict := [ ("note", JStr "x"); ("name", JStr "Work") ].

(** The sample window with a current index past the list. *)
Definition sample_window_astray : MainWindow := set_current_index sample_window 5.

(** A window whose only profile is named as the next new profile will be. *)
Definition sample_window_named : MainWindow :=
  mkWindow [ mkProfile (JStr "Profile 2") 1280 800 false (JStr "/data/two") false
                       ProxyConfig_default ]
           (-1) None [] None "Ready" [] false None.

(** The window built from a missing file. *)
Definition empty_window : MainWindow :=
  mkWindow [] (-1) None [] None "Ready" [] false None.

(** The form after a second edit, with another name and viewport. *)
Definition sample_form_edited : Form :=
  mkForm "Edited" 1024 768 false "" 0 "" "" false "/data/work".

(** * Properties *)

(** ** Helper lemmas *)

Lemma bind_Ok : forall (A B : Type) (m : result A) (k : A -> result B) (b : B),
  bind m k = Ok b -> exists a, m = Ok a /\ k a = Ok b.
Proof.
  intros A B m k b H. destruct m as [a|e]; simpl in H.
  - exists a. split; [reflexivity | exact H].
  - discriminate H.
Qed.

(** Take the next binding out of a successful computation. *)
Ltac bind_ok H x Hx := apply bind_Ok in H; destruct H as [x [Hx H]].

Lemma truthy_JStr : forall s, truthy (JStr s) = false <-> s = "".
Proof.
  intros s. simpl. split.
  - intros H. apply negb_false_iff in H. apply String.eqb_eq in H. exact H.
  - intros ->. reflexivity.
Qed.

Lemma truthy_JInt : forall z, truthy (JInt z) = false <-> z = 0.
Proof.
  intros z. simpl. rewrite negb_false_iff. apply Z.eqb_eq.
Qed.

(** A key that [dict_get] finds is bound in the dict. *)
Lemma dict_get_In : forall (l : pydict) k,
  dict_get l k <> None -> exists v, In (k, v) l.
Proof.
  induction l as [|[k' v'] l IH]; simpl; intros k H; [contradiction|].
  destruct (String.eqb k' k) eqn:E.
  - apply String.eqb_eq in E. subst. exists v'. left. reflexivity.
  - destruct (IH k H) as [v Hv]. exists v. right. exact Hv.
Qed.

(** [int(port or 0)] gives an integer port back. *)
Lemma port_or_zero : forall z, py_int (py_or (JInt z) (JInt 0)) = Ok z.
Proof.
  intros z. unfold py_or. destruct (truthy (JInt z)) eqn:E.
  - reflexivity.
  - apply truthy_JInt in E. subst z. reflexivity.
Qed.

(** Reading back what [to_dict] wrote, as long as the storage directory is
    not refilled. *)
Lemma from_dict_to_dict_kept : forall p,
  truthy (persistent_dir p) = true -> from_dict (to_dict p) = Ok p.
Proof.
  intros [nm vw vh fs pd geo [h pt u pw]] H. simpl in H.
  unfold from_dict, to_dict, proxy_asdict, py_get. simpl.
  rewrite H. simpl. rewrite port_or_zero. simpl.
  destruct fs, geo; reflexivity.
Qed.

(** Reading back what [to_dict] wrote when the storage directory is refilled
    from the name. *)
Lemma from_dict_to_dict_refilled : forall p n,
  name p = JStr n ->
  truthy (persistent_dir p) = false ->
  from_dict (to_dict p) = Ok (set_persistent_dir p (JStr (path_join storage_root n))).
Proof.
  intros [nm vw vh fs pd geo [h pt u pw]] n Hn H. simpl in Hn, H. subst nm.
  unfold from_dict, to_dict, proxy_asdict, py_get, set_persistent_dir. simpl.
  rewrite H. simpl. rewrite port_or_zero. simpl.
  destruct fs, geo; reflexivity.
Qed.

(** What [from_dict] returns has a storage directory that reading again
    leaves alone: one that counts as true, or the default for the name. *)
Lemma from_dict_storage : forall d p,
  from_dict d = Ok p ->
  truthy (persistent_dir p) = true \/
  exists n, name p = JStr n /\ persistent_dir p = JStr (path_join storage_root n).
Proof.
  intros d p H. unfold from_dict in H. destruct d; try discriminate H.
  bind_ok H pd Hpd.
  bind_ok H vw Hvw'.
  bind_ok H vh Hvh'.
  bind_ok H pt Hpt'.
  injection H as <-. simpl.
  destruct (truthy (py_get d "persistent_dir" (JStr ""))) eqn:E; simpl in Hpd.
  - injection Hpd as <-. left. exact E.
  - right. unfold default_storage in Hpd.
    destruct (py_get d "name" (JStr "Profile")); try discriminate Hpd.
    injection Hpd as <-. exists s. split; reflexivity.
Qed.

Lemma from_dict_to_dict_fixed : forall p,
  (truthy (persistent_dir p) = true \/
   exists n, name p = JStr n /\ persistent_dir p = JStr (path_join storage_root n)) ->
  from_dict (to_dict p) = Ok p.
Proof.
  intros p [H | [n [Hn Hp]]].
  - apply from_dict_to_dict_kept. exact H.
  - destruct (truthy (persistent_dir p)) eqn:E.
    + apply from_dict_to_dict_kept. exact E.
    + rewrite (from_dict_to_dict_refilled p n Hn E).
      destruct p as [nm vw vh fs pd geo px]. simpl in *. subst pd. reflexivity.
Qed.

(** ** Serialisation *)

(** C1. A profile whose storage directory is set is read back unchanged from
    its own serialisation; a profile whose storage directory is the empty
    string is read back with the default directory, the fixed root joined with
    its name, and so not as it was written when that path is not empty. *)
Theorem from_dict_to_dict_roundtrip : forall p,
  (truthy (persistent_dir p) = true -> from_dict (to_dict p) = Ok p) /\
  (forall n, name p = JStr n -> persistent_dir p = JStr "" ->
     from_dict (to_dict p) = Ok (set_persistent_dir p (JStr (path_join storage_root n))) /\
     (path_join storage_root n <> "" -> from_dict (to_dict p) <> Ok p)).
Proof.
  intros p. split.
  - apply from_dict_to_dict_kept.
  - intros n Hn Hp.
    assert (E : truthy (persistent_dir p) = false) by (rewrite Hp; reflexivity).
    rewrite (from_dict_to_dict_refilled p n Hn E). split; [reflexivity|].
    intros Hne Heq. injection Heq as Heq.
    destruct p as [nm vw vh fs pd geo px]. simpl in *.
    unfold set_persistent_dir in Heq. simpl in Heq.
    injection Heq as Heq. rewrite Hp in Heq. injection Heq as Heq. contradiction.
Qed.

(** C8. Whenever [from_dict] accepts a record, saving the profile it returns
    and loading it again gives the same profile. *)
Theorem from_dict_idempotent : forall d p,
  from_dict d = Ok p -> from_dict (to_dict p) = Ok p.
Proof.
  intros d p H. apply from_dict_to_dict_fixed. exact (from_dict_storage d p H).
Qed.

(** ** Proxy configuration *)

(** [to_proxy_dict] on any configuration: the proxy is absent exactly when
    the host counts as false or the port is zero. *)
Lemma to_proxy_dict_None : forall c,
  to_proxy_dict c = None <-> truthy (host c) = false \/ port c = 0.
Proof.
  intros c. unfold to_proxy_dict.
  destruct (truthy (host c)) eqn:Eh; simpl.
  - destruct (port c =? 0)%Z eqn:Ep; simpl.
    + apply Z.eqb_eq in Ep. split; [right; exact Ep | reflexivity].
    + apply Z.eqb_neq in Ep. split; [discriminate|].
      intros [H | H]; [discriminate H | contradiction].
  - split; [left; reflexivity | reflexivity].
Qed.

(** C2. For a proxy configuration whose text fields are strings,
    [to_proxy_dict] returns [None] exactly when the host is empty or the port
    is zero; otherwise the dict it returns has the server address built from
    host and port, the user name exactly when it is not empty, the password
    exactly when it is not empty, and no other key. *)
Theorem to_proxy_dict_spec : forall c h u pw,
  host c = JStr h -> username c = JStr u -> password c = JStr pw ->
  (to_proxy_dict c = None <-> h = "" \/ port c = 0) /\
  (forall d, to_proxy_dict c = Some d ->
     dict_get d "server" = Some (JStr ("http://" ++ h ++ ":" ++ str_of_int (port c))) /\
     (dict_get d "username" <> None <-> u <> "") /\
     (u <> "" -> dict_get d "username" = Some (JStr u)) /\
     (dict_get d "password" <> None <-> pw <> "") /\
     (pw <> "" -> dict_get d "password" = Some (JStr pw)) /\
     (forall k, dict_get d k <> None ->
        k = "server" \/ k = "username" \/ k = "password")).
Proof.
  intros c h u pw Hh Hu Hp. split.
  - rewrite to_proxy_dict_None, Hh, truthy_JStr. reflexivity.
  - intros d Hd. unfold to_proxy_dict in Hd.
    destruct (negb (truthy (host c)) || negb (truthy (JInt (port c)))); [discriminate Hd|].
    rewrite Hh, Hu, Hp in Hd.
    destruct u as [|a u], pw as [|b pw]; simpl in Hd; injection Hd as <-;
      (split; [reflexivity|]);
      (split; [split; intros H; first [discriminate | exfalso; apply H; reflexivity]|]);
      (split; [intros H; first [reflexivity | exfalso; apply H; reflexivity]|]);
      (split; [split; intros H; first [discriminate | exfalso; apply H; reflexivity]|]);
      (split; [intros H; first [reflexivity | exfalso; apply H; reflexivity]|]);
      intros k Hk; apply dict_get_In in Hk; destruct Hk as [v Hv];
      repeat (destruct Hv as [Hv | Hv]; [injection Hv as <- _; auto|]);
      contradiction.
Qed.

(** ** Loading the persisted file *)

(** C5. When the file exists and [json.load] rejects its text, the exception
    leaves [load_profiles], and the construction of the window with it: no
    list of profiles is returned. *)
Theorem load_profiles_malformed : forall s e,
  json_load s = Raise e ->
  load_profiles (Some (Text s)) = Raise e /\ init (Some (Text s)) = Raise e.
Proof.
  intros s e H. unfold init, load_profiles, load_text. rewrite H. split; reflexivity.
Qed.

(** The port of a record whose proxy entry is replaced by [r] with the port
    set to 0. *)
Lemma from_dict_port_zero : forall d r,
  dict_get d "proxy" = Some (JDict r) ->
  truthy (py_get r "port" (JInt 0)) = false ->
  from_dict (JDict d) =
  from_dict (JDict (dict_set "proxy" (JDict (dict_set "port" (JInt 0) r)) d)).
Proof.
  intros d r Hr Hf. unfold from_dict, dict_set.
  assert (R : py_get d "proxy" (JDict []) = JDict r) by (unfold py_get; rewrite Hr; reflexivity).
  rewrite R. unfold py_or. rewrite Hf. unfold py_get. simpl. reflexivity.
Qed.

(** C6, as the code has it. A proxy entry that is not a dict is read as an
    empty one: the record loads exactly as with an empty proxy and every proxy
    field takes its default.  In a proxy dict, a port that is missing or
    counts as false is read as 0 and cannot raise: the record loads exactly
    as with the port 0.  A port that counts as true and that [int] rejects
    makes [from_dict] raise, with the exception of [int] when the rest of the
    record loads: that of [int] on a string, [ValueError] for a number that
    is not one, [OverflowError] for an infinity, [TypeError] for a list or a
    dict. *)
Theorem from_dict_proxy_defaulting : forall d,
  (forall v, dict_get d "proxy" = Some v -> is_dict v = false ->
     from_dict (JDict d) = from_dict (JDict (dict_set "proxy" (JDict []) d)) /\
     forall p, from_dict (JDict d) = Ok p -> proxy p = ProxyConfig_default) /\
  (forall r, dict_get d "proxy" = Some (JDict r) ->
     truthy (py_get r "port" (JInt 0)) = false ->
     py_int (py_or (py_get r "port" (JInt 0)) (JInt 0)) = Ok 0 /\
     from_dict (JDict d) =
       from_dict (JDict (dict_set "proxy" (JDict (dict_set "port" (JInt 0) r)) d)) /\
     forall p, from_dict (JDict d) = Ok p -> port (proxy p) = 0) /\
  (forall r e, dict_get d "proxy" = Some (JDict r) ->
     truthy (py_get r "port" (JInt 0)) = true ->
     py_int (py_get r "port" (JInt 0)) = Raise e ->
     (exists e', from_dict (JDict d) = Raise e') /\
     (forall p,
        from_dict (JDict (dict_set "proxy" (JDict (dict_set "port" (JInt 0) r)) d)) = Ok p ->
        from_dict (JDict d) = Raise e)) /\
  (forall v e, truthy v = true -> py_int v = Raise e ->
     (exists s, v = JStr s /\ int_of_str s = Raise e) \/
     (v = JFloat FNaN /\ e = ValueError) \/
     (exists negative, v = JFloat (FInf negative) /\ e = OverflowError) \/
     (((exists l, v = JList l) \/ (exists r, v = JDict r)) /\ e = TypeError)).
Proof.
  intros d. split; [|split; [|split]].
  - intros v Hv Hd.
    assert (R : match py_get d "proxy" (JDict []) with JDict r => r | _ => [] end = []).
    { unfold py_get. rewrite Hv. destruct v; try reflexivity. discriminate Hd. }
    split.
    + unfold from_dict, dict_set. rewrite R. unfold py_get. simpl. reflexivity.
    + intros p H. unfold from_dict in H. rewrite R in H.
      bind_ok H pd Hpd'.
      bind_ok H vw Hvw'.
      bind_ok H vh Hvh'.
      bind_ok H pt Hpt.
      injection H as <-. simpl in *. injection Hpt as <-. reflexivity.
  - intros r Hr Hf. split; [|split].
    + unfold py_or. rewrite Hf. reflexivity.
    + exact (from_dict_port_zero d r Hr Hf).
    + intros p H. unfold from_dict in H.
      assert (R : py_get d "proxy" (JDict []) = JDict r)
        by (unfold py_get; rewrite Hr; reflexivity).
      rewrite R in H.
      bind_ok H pd Hpd'.
      bind_ok H vw Hvw'.
      bind_ok H vh Hvh'.
      bind_ok H pt Hpt.
      injection H as <-. simpl. unfold py_or in Hpt. rewrite Hf in Hpt.
      simpl in Hpt. injection Hpt as <-. reflexivity.
  - intros r e Hr Ht He.
    assert (R : py_get d "proxy" (JDict []) = JDict r)
      by (unfold py_get; rewrite Hr; reflexivity).
    split.
    + unfold from_dict. rewrite R. unfold py_or. rewrite Ht, He.
      destruct (if negb (truthy (py_get d "persistent_dir" (JStr "")))
                then default_storage (py_get d "name" (JStr "Profile"))
                else Ok (py_get d "persistent_dir" (JStr ""))) as [pd|e1]; simpl;
        [|eexists; reflexivity].
      destruct (py_int (py_get d "viewport_width" (JInt 1280))) as [vw|e2]; simpl;
        [|eexists; reflexivity].
      destruct (py_int (py_get d "viewport_height" (JInt 800))) as [vh|e3]; simpl;
        eexists; reflexivity.
    + intros p H. unfold from_dict, dict_set in H. unfold py_get in H. simpl in H.
      fold (py_get d "persistent_dir" (JStr "")) in H.
      fold (py_get d "name" (JStr "Profile")) in H.
      fold (py_get d "viewport_width" (JInt 1280)) in H.
      fold (py_get d "viewport_height" (JInt 800)) in H.
      bind_ok H pd Hpd.
      bind_ok H vw Hvw.
      bind_ok H vh Hvh.
      unfold from_dict. rewrite R, Hpd, Hvw, Hvh. cbn [bind].
      unfold py_or. rewrite Ht, He. reflexivity.
  - intros v e Ht He. destruct v as [| b | z | f | s | l | r]; simpl in He.
    + discriminate Ht.
    + discriminate He.
    + discriminate He.
    + destruct f as [| negative | m ex]; simpl in He.
      * injection He as <-. right. left. split; reflexivity.
      * injection He as <-. right. right. left. exists negative. split; reflexivity.
      * destruct (0 <=? ex)%Z; discriminate He.
    + left. exists s. split; [reflexivity | exact He].
    + injection He as <-. right. right. right. split; [|reflexivity].
      left. exists l. reflexivity.
    + injection He as <-. right. right. right. split; [|reflexivity].
      right. exists r. reflexivity.
Qed.

(** ** The session worker *)

Lemma count_stopped_app : forall l1 l2,
  count_stopped (l1 ++ l2) = (count_stopped l1 + count_stopped l2)%nat.
Proof.
  intros l1 l2. unfold count_stopped. rewrite filter_app, length_app. reflexivity.
Qed.

Lemma count_stopped_call : forall c l,
  count_stopped (Call c :: l) = count_stopped l.
Proof. reflexivity. Qed.

Lemma count_stopped_error : forall m l,
  count_stopped (Emit (error m) :: l) = count_stopped l.
Proof. reflexivity. Qed.

Lemma count_stopped_calls : forall (A : Type) (f : A -> call) (l : list A),
  count_stopped (map (fun x => Call (f x)) l) = 0%nat.
Proof.
  intros A f l. induction l as [|x l IH]; [reflexivity | exact IH].
Qed.

(** Nothing before the [finally] block emits [stopped]. *)
Lemma open_session_no_stopped : forall env self,
  count_stopped (fst (open_session env self)) = 0%nat.
Proof.
  intros env self. unfold open_session.
  destruct (match launch_size self with
            | Some size => size
            | None => (viewport_width (w_profile self), viewport_height (w_profile self))
            end) as [W H].
  destruct (truthy (persistent_dir (w_profile self))); simpl.
  - destruct (makedirs env (persistent_dir (w_profile self))); simpl; [|reflexivity].
    destruct (abspath env (persistent_dir (w_profile self))); simpl; [|reflexivity].
    destruct (px_truthy _); destruct (Camoufox_enter env _); reflexivity.
  - destruct (px_truthy _); destruct (Camoufox_enter env _); reflexivity.
Qed.

Lemma prepare_page_no_stopped : forall env self WH,
  count_stopped (fst (prepare_page env self WH)) = 0%nat.
Proof.
  intros env self WH. unfold prepare_page.
  destruct (ctx_pages env) as [pages|e]; simpl; [|reflexivity].
  destruct (0 <? pages)%nat; simpl.
  - unfold close_extras. destruct (fullscreen (w_profile self)); simpl;
      rewrite count_stopped_call, count_stopped_app,
        (count_stopped_calls nat Cclose_page); reflexivity.
  - destruct (new_page env); simpl; [|reflexivity].
    destruct (fullscreen (w_profile self)); reflexivity.
Qed.

Lemma idle_no_stopped : forall env fuel k l r,
  idle env fuel k = Some (l, r) -> count_stopped l = 0%nat.
Proof.
  intros env fuel. induction fuel as [|fuel IH]; intros k l r H; simpl in H.
  - discriminate H.
  - destruct (stop_requested env k).
    + injection H as <- _. reflexivity.
    + destruct (sleep env k).
      * destruct (idle env fuel (S k)) as [[l' r']|] eqn:E; [|discriminate H].
        injection H as <- _. exact (IH _ _ _ E).
      * injection H as <- _. reflexivity.
Qed.

Lemma teardown_stopped_once : forall env self b,
  count_stopped (teardown env self b) = 1%nat /\
  exists l, teardown env self b =
            (l ++ [Emit (stopped ("Session stopped for '" ++ format_value (name (w_profile self)) ++ "'."))])%list.
Proof.
  intros env self b. unfold teardown. split.
  - destruct b; [destruct (ctx_close env)|]; reflexivity.
  - eexists. reflexivity.
Qed.

(** More fuel does not change the outcome of the idle loop. *)
Lemma idle_more_fuel : forall env fuel k r,
  idle env fuel k = Some r -> idle env (S fuel) k = Some r.
Proof.
  intros env fuel. induction fuel as [|fuel IH]; intros k r H.
  - discriminate H.
  - simpl in H. change (idle env (S (S fuel)) k) with
      (if stop_requested env k then Some (io_ret tt)
       else match sleep env k with
            | Raises e => Some ([Call Csleep], Raises e)
            | Returns _ =>
                match idle env (S fuel) (S k) with
                | Some (l, r) => Some (Call Csleep :: l, r)
                | None => None
                end
            end).
    destruct (stop_requested env k); [exact H|].
    destruct (sleep env k); [|exact H].
    destruct (idle env fuel (S k)) as [[l' r']|] eqn:E; [|discriminate H].
    rewrite (IH _ _ E). exact H.
Qed.

Lemma idle_fuel_le : forall env fuel fuel' k r,
  (fuel <= fuel')%nat -> idle env fuel k = Some r -> idle env fuel' k = Some r.
Proof.
  intros env fuel fuel' k r Hle H. induction Hle as [|m Hle IH]; [exact H|].
  apply idle_more_fuel. exact IH.
Qed.

Lemma idle_ends : forall env n j,
  loop_exits env (j + n) -> exists r, idle env (S n) j = Some r.
Proof.
  intros env n. induction n as [|n IH]; intros j H.
  - rewrite Nat.add_0_r in H. simpl. destruct H as [H | [e H]].
    + rewrite H. eexists. reflexivity.
    + rewrite H. destruct (stop_requested env j); eexists; reflexivity.
  - change (idle env (S (S n)) j) with
      (if stop_requested env j then Some (io_ret tt)
       else match sleep env j with
            | Raises e => Some ([Call Csleep], Raises e)
            | Returns _ =>
                match idle env (S n) (S j) with
                | Some (l, r) => Some (Call Csleep :: l, r)
                | None => None
                end
            end).
    destruct (stop_requested env j); [eexists; reflexivity|].
    destruct (sleep env j); [|eexists; reflexivity].
    destruct (IH (S j)) as [[l r] Hr].
    + replace (S j + n)%nat with (j + S n)%nat by lia. exact H.
    + rewrite Hr. eexists. reflexivity.
Qed.

(** Every finished run of an available library ends with its only
    [stopped]. *)
Lemma run_finished_stopped : forall env self fuel log,
  CAMOUFOX_OK = true ->
  run env self fuel = Some log ->
  count_stopped log = 1%nat /\
  exists l, log = (l ++ [Emit (stopped ("Session stopped for '" ++ format_value (name (w_profile self)) ++ "'."))])%list.
Proof.
  intros env self fuel log Hok H. unfold run in H. rewrite Hok in H. cbn [negb] in H.
  pose proof (open_session_no_stopped env self) as H1.
  destruct (open_session env self) as [l1 [WH|e]]; simpl in H1.
  - pose proof (prepare_page_no_stopped env self WH) as H2.
    destruct (prepare_page env self WH) as [l2 [u|e]]; simpl in H2.
    + destruct (idle env fuel 0) as [[l3 r3]|] eqn:E; [|discriminate H].
      pose proof (idle_no_stopped _ _ _ _ _ E) as H3.
      destruct (teardown_stopped_once env self true) as [T [lt Tl]].
      destruct r3; injection H as <-; split.
      * rewrite !count_stopped_app, ?count_stopped_error, H1, H2, H3, T. reflexivity.
      * rewrite Tl. exists (l1 ++ l2 ++ l3 ++ lt)%list. rewrite <- !app_assoc. reflexivity.
      * rewrite !count_stopped_app, ?count_stopped_error, H1, H2, H3, T. reflexivity.
      * rewrite Tl. exists (l1 ++ l2 ++ l3 ++ on_exception msg ++ lt)%list.
        rewrite <- !app_assoc. reflexivity.
    + destruct (teardown_stopped_once env self true) as [T [lt Tl]].
      injection H as <-. split.
      * rewrite !count_stopped_app, ?count_stopped_error, H1, H2, T. reflexivity.
      * rewrite Tl. exists (l1 ++ l2 ++ on_exception e ++ lt)%list.
        rewrite <- !app_assoc. reflexivity.
  - destruct (teardown_stopped_once env self false) as [T [lt Tl]].
    injection H as <-. split.
    + rewrite !count_stopped_app, ?count_stopped_error, H1, T. reflexivity.
    + rewrite Tl. exists (l1 ++ on_exception e ++ lt)%list.
      rewrite <- !app_assoc. reflexivity.
Qed.

Lemma run_finishes : forall env self k,
  loop_exits env k ->
  forall fuel, (S k <= fuel)%nat -> exists log, run env self fuel = Some log.
Proof.
  intros env self k Hk fuel Hle. unfold run.
  destruct (negb CAMOUFOX_OK); [eexists; reflexivity|].
  destruct (open_session env self) as [l1 [WH|e]]; [|eexists; reflexivity].
  destruct (prepare_page env self WH) as [l2 [u|e]]; [|eexists; reflexivity].
  destruct (idle_ends env k 0 Hk) as [r Hr].
  rewrite (idle_fuel_le env (S k) fuel 0 r Hle Hr).
  destruct r as [l3 [u3|e3]]; eexists; reflexivity.
Qed.

(** C3, as the code has it. When the library is available, every run that
    ends emits [stopped] exactly once, as its last action, whether the
    session was stopped, failed to start or met an exception while idling; and
    the run does end once the stop flag is seen or [sleep] raises.  When the
    library is not available, the run emits one [error] and no [stopped]. *)
Theorem run_stopped_exactly_once : forall env self,
  (CAMOUFOX_OK = true ->
     (forall fuel log, run env self fuel = Some log ->
        count_stopped log = 1%nat /\ exists l m, log = (l ++ [Emit (stopped m)])%list) /\
     (forall k, loop_exits env k ->
        forall fuel, (S k <= fuel)%nat ->
        exists log, run env self fuel = Some log /\ count_stopped log = 1%nat)) /\
  (CAMOUFOX_OK = false ->
     forall fuel, exists msg,
       run env self fuel = Some [Emit (error msg)] /\
       count_stopped [Emit (error msg)] = 0%nat).
Proof.
  intros env self. split.
  - intros Hok. split.
    + intros fuel log H.
      destruct (run_finished_stopped env self fuel log Hok H) as [C [l Hl]].
      split; [exact C|]. exists l. eexists. exact Hl.
    + intros k Hk fuel Hle.
      destruct (run_finishes env self k Hk fuel Hle) as [log Hlog].
      exists log. split; [exact Hlog|].
      exact (proj1 (run_finished_stopped env self fuel log Hok Hlog)).
  - intros Hno fuel. unfold run. rewrite Hno. simpl. eexists. split; reflexivity.
Qed.

(** ** The window's slots *)

Lemma length_update_nth : forall (A : Type) n (x : A) l,
  List.length (update_nth n x l) = List.length l.
Proof.
  intros A n x l. revert n. induction l as [|y l IH]; intros [|n]; simpl;
    try reflexivity. rewrite IH. reflexivity.
Qed.

Lemma update_nth_twice : forall (A : Type) n (x : A) l,
  update_nth n x (update_nth n x l) = update_nth n x l.
Proof.
  intros A n x l. revert n. induction l as [|y l IH]; intros [|n]; simpl;
    try reflexivity. rewrite IH. reflexivity.
Qed.

Lemma py_index_in_range : forall (A : Type) (l : list A) i,
  0 <= i < Z.of_nat (List.length l) -> py_index l i = Some (Z.to_nat i).
Proof.
  intros A l i [H0 H1]. unfold py_index.
  destruct (i <? 0)%Z eqn:E; [apply Z.ltb_lt in E; lia|].
  replace (0 <=? i)%Z with true by (symmetry; apply Z.leb_le; exact H0).
  replace (i <? Z.of_nat (List.length l))%Z with true
    by (symmetry; apply Z.ltb_lt; exact H1).
  reflexivity.
Qed.

Lemma current_in_range : forall st q,
  _current st = Some q -> 0 <= current_index st < Z.of_nat (List.length (profiles st)).
Proof.
  intros st q H. unfold _current in H.
  destruct (0 <=? current_index st)%Z eqn:E0; [|discriminate H].
  destruct (current_index st <? Z.of_nat (List.length (profiles st)))%Z eqn:E1;
    [|discriminate H].
  apply Z.leb_le in E0. apply Z.ltb_lt in E1. lia.
Qed.

(** Writing the gathered profile into the slot that [_gather_form] already
    filled in place changes nothing more. *)
Lemma list_set_after_gather : forall (l : list Profile) i p,
  0 <= i < Z.of_nat (List.length l) ->
  list_set (update_nth (Z.to_nat i) p l) i p = list_set l i p.
Proof.
  intros l i p H. unfold list_set.
  rewrite (py_index_in_range _ l i H).
  rewrite (py_index_in_range _ (update_nth (Z.to_nat i) p l) i)
    by (rewrite length_update_nth; exact H).
  rewrite update_nth_twice. reflexivity.
Qed.

Lemma nth_error_update_nth : forall (A : Type) n (x : A) l,
  (n < List.length l)%nat -> nth_error (update_nth n x l) n = Some x.
Proof.
  intros A n x l. revert n. induction l as [|y l IH]; intros [|n] H; simpl in *;
    try lia; [reflexivity|]. apply IH. lia.
Qed.

(** What [_gather_form] returns and leaves behind. *)
Lemma gather_form_spec : forall form st,
  exists st0,
    _gather_form form st = (gathered form, st0) /\
    current_index st0 = current_index st /\
    list_set (profiles st0) (current_index st) (gathered form) =
      list_set (profiles st) (current_index st) (gathered form) /\
    forall ps, set_profiles (taken_over st0) ps = set_profiles (rebound form st) ps.
Proof.
  intros form st. unfold _gather_form.
  destruct (_current st) as [q|] eqn:E.
  - eexists. split; [reflexivity|]. split; [reflexivity|].
    pose proof (current_in_range st q E) as R. split.
    + cbn [profiles write_in_place]. exact (list_set_after_gather _ _ _ R).
    + intros ps. unfold taken_over, rebound, set_profiles, _current.
      cbn [profiles current_index worker retired file statusbar dialogs running
           worker_slot write_in_place].
      rewrite length_update_nth.
      fold (_current st). rewrite E.
      replace ((0 <=? current_index st)%Z &&
               (current_index st <? Z.of_nat (List.length (profiles st)))%Z)
        with true
        by (symmetry; apply andb_true_iff; split;
            [apply Z.leb_le | apply Z.ltb_lt]; lia).
      rewrite nth_error_update_nth by lia.
      destruct (worker_slot st); reflexivity.
  - exists st. split; [reflexivity|]. split; [reflexivity|]. split; [reflexivity|].
    intros ps. unfold taken_over, rebound, set_profiles.
    cbn [profiles current_index worker retired file statusbar dialogs running worker_slot].
    rewrite E. reflexivity.
Qed.

(** Writing into the worker's profile object leaves its thread as it is. *)
Lemma rebound_worker : forall form st,
  worker (rebound form st) = worker st \/
  worker (rebound form st) = option_map (with_profile (gathered form)) (worker st).
Proof.
  intros form st. unfold rebound. cbn [worker].
  destruct (_current st); [|left; reflexivity].
  destruct (worker_slot st) as [k|]; [|left; reflexivity].
  destruct (k =? Z.to_nat (current_index st))%nat; [right | left]; reflexivity.
Qed.

Lemma rebound_worker_running : forall form st,
  worker_running (rebound form st) = worker_running st.
Proof.
  intros form st. unfold worker_running.
  destruct (rebound_worker form st) as [-> | ->]; [reflexivity|].
  destruct (worker st); reflexivity.
Qed.

(** The save action on a selected row. *)
Lemma save_changes_selected : forall form st,
  current_index st <> -1 ->
  _save_changes form st =
  (ps <- list_set (profiles st) (current_index st) (gathered form) ;;
   Ok (showMessage "Profile saved"
         (set_file (set_profiles (rebound form st) ps) (save_profiles ps)))).
Proof.
  intros form st H. unfold _save_changes.
  apply Z.eqb_neq in H. rewrite H.
  destruct (gather_form_spec form st) as [st0 [G [Hc [Hl Hs]]]].
  rewrite G, Hc, Hl.
  destruct (list_set (profiles st) (current_index st) (gathered form)) as [ps|e];
    [|reflexivity].
  cbn [bind]. rewrite Hs. reflexivity.
Qed.

(** A launch request with no session running and a row selected. *)
Lemma launch_accepted : forall form screen st,
  worker_running st = false ->
  current_index st <> -1 ->
  _launch form screen st =
  (ps <- list_set (profiles st) (current_index st) (gathered form) ;;
   let st := set_file (set_profiles (rebound form st) ps) (save_profiles ps) in
   if negb CAMOUFOX_OK then Ok (message_box "Camoufox not available" st)
   else Ok (_set_running true
              (new_worker (mkWorker (gathered form)
                                    (Some (effective_size (gathered form) screen))
                                    false true) st))).
Proof.
  intros form screen st Hw H. unfold _launch. rewrite Hw.
  apply Z.eqb_neq in H. rewrite H.
  destruct (gather_form_spec form st) as [st0 [G [Hc [Hl Hs]]]].
  rewrite G, Hc, Hl.
  destruct (list_set (profiles st) (current_index st) (gathered form)) as [ps|e];
    [|reflexivity].
  cbn [bind]. rewrite Hs. unfold effective_size. destruct screen. reflexivity.
Qed.

Lemma open_session_window : forall env self opts,
  In (Call (CCamoufox opts)) (fst (open_session env self)) ->
  window opts =
  (fst (match launch_size self with
        | Some size => size
        | None => (viewport_width (w_profile self), viewport_height (w_profile self))
        end) + 2,
   snd (match launch_size self with
        | Some size => size
        | None => (viewport_width (w_profile self), viewport_height (w_profile self))
        end) + 88).
Proof.
  intros env self opts. unfold open_session.
  destruct (match launch_size self with
            | Some size => size
            | None => (viewport_width (w_profile self), viewport_height (w_profile self))
            end) as [W H].
  cbn [fst snd].
  destruct (truthy (persistent_dir (w_profile self))); simpl.
  - destruct (makedirs env (persistent_dir (w_profile self))); simpl.
    + destruct (abspath env (persistent_dir (w_profile self))); simpl.
      * destruct (px_truthy _); destruct (Camoufox_enter env _); simpl;
          intros [Hc | [Hc | [Hc | []]]]; try discriminate Hc;
          injection Hc as <-; reflexivity.
      * intros [Hc | [Hc | []]]; discriminate Hc.
    + intros [Hc | []]; discriminate Hc.
  - destruct (px_truthy _); destruct (Camoufox_enter env _); simpl;
      intros [Hc | []]; injection Hc as <-; reflexivity.
Qed.

(** C4. The window asked of the library is the effective size plus 2 in
    width and 88 in height, for every profile: the effective size is the
    screen's available geometry when the profile is full screen and its
    viewport otherwise, and it is the size [_launch] gives to the worker it
    starts. *)
Theorem launch_window_size :
  (forall prof screen env opts,
     In (Call (CCamoufox opts))
        (fst (open_session env (mkWorker prof (Some (effective_size prof screen)) false true))) ->
     window opts = (fst (effective_size prof screen) + 2,
                    snd (effective_size prof screen) + 88)) /\
  (forall prof screen env,
     (truthy (persistent_dir prof) = true ->
      exists u dir, makedirs env (persistent_dir prof) = Returns u /\
                    abspath env (persistent_dir prof) = Returns dir) ->
     exists opts,
       In (Call (CCamoufox opts))
          (fst (open_session env (mkWorker prof (Some (effective_size prof screen)) false true))) /\
       window opts = (fst (effective_size prof screen) + 2,
                      snd (effective_size prof screen) + 88)) /\
  (forall form screen st st',
     CAMOUFOX_OK = true -> worker_running st = false -> current_index st <> -1 ->
     _launch form screen st = Ok st' ->
     worker st' = Some (mkWorker (gathered form)
                                 (Some (effective_size (gathered form) screen))
                                 false true)) /\
  (forall nm dir geo px screen,
     let size := effective_size (mkProfile nm 1280 800 false dir geo px) screen in
     (fst size + 2, snd size + 88) = (1282, 888)) /\
  (forall nm vw vh dir geo px,
     let size := effective_size (mkProfile nm vw vh true dir geo px) (1920, 1040) in
     (fst size + 2, snd size + 88) = (1922, 1128)).
Proof.
  split; [|split; [|split; [|split; intros; reflexivity]]].
  - intros prof screen env opts H. apply open_session_window in H. exact H.
  - intros prof screen env Hfs.
    assert (E : exists opts,
               In (Call (CCamoufox opts))
                  (fst (open_session env
                          (mkWorker prof (Some (effective_size prof screen)) false true)))).
    { unfold open_session. cbn [w_profile launch_size].
      destruct (effective_size prof screen) as [W H].
      destruct (truthy (persistent_dir prof)) eqn:T.
      - destruct (Hfs eq_refl) as [u [dir [Hm Ha]]]. rewrite Hm, Ha. simpl.
        destruct (px_truthy _); destruct (Camoufox_enter env _); simpl;
          eexists; right; right; left; reflexivity.
      - simpl. destruct (px_truthy _); destruct (Camoufox_enter env _); simpl;
          eexists; left; reflexivity. }
    destruct E as [opts Hin]. exists opts. split; [exact Hin|].
    apply open_session_window in Hin. exact Hin.
  - intros form screen st st' Hok Hw Hi H.
    rewrite (launch_accepted form screen st Hw Hi) in H.
    bind_ok H ps Hps'.
    rewrite Hok in H. cbn [negb] in H. injection H as <-. reflexivity.
Qed.

(** A launch that is refused because a session runs only writes the status
    bar. *)
Lemma launch_while_running : forall form screen st,
  worker_running st = true ->
  _launch form screen st = Ok (showMessage "A session is already running" st).
Proof.
  intros form screen st H. unfold _launch. rewrite H. reflexivity.
Qed.

Lemma filter_none : forall (A : Type) (f : A -> bool) l,
  Forall (fun x => f x = false) l -> filter f l = [].
Proof.
  intros A f l H. induction H as [|x l Hx _ IH]; simpl; [reflexivity|].
  rewrite Hx. exact IH.
Qed.

Lemma retired_finished_active : forall st,
  retired_finished st -> (List.length (active_workers st) <= 1)%nat.
Proof.
  intros st H. unfold active_workers.
  destruct (worker st) as [w|]; simpl.
  - destruct (isRunning w); simpl; rewrite (filter_none _ _ _ H); simpl; lia.
  - rewrite (filter_none _ _ _ H). simpl. lia.
Qed.

Lemma step_retired_finished : forall ev st st',
  retired_finished st -> step ev st = Ok st' -> retired_finished st'.
Proof.
  intros ev st st' Inv H. unfold retired_finished in *.
  destruct ev as [row | | row confirmed | form | form screen | finished | msg | ];
    simpl in H.
  - injection H as <-. exact Inv.
  - injection H as <-. exact Inv.
  - unfold _delete_profile in H. destruct (row <? 0)%Z.
    + injection H as <-. exact Inv.
    + bind_ok H p Hp'.
      destruct (negb confirmed).
      * injection H as <-. exact Inv.
      * bind_ok H ps Hps'. injection H as <-. exact Inv.
  - destruct (Z.eq_dec (current_index st) (-1)) as [E | E].
    + unfold _save_changes in H. rewrite E in H. simpl in H.
      injection H as <-. exact Inv.
    + rewrite (save_changes_selected form st E) in H.
      bind_ok H ps Hps'. injection H as <-. exact Inv.
  - destruct (worker_running st) eqn:Hw.
    + rewrite (launch_while_running form screen st Hw) in H.
      injection H as <-. exact Inv.
    + destruct (Z.eq_dec (current_index st) (-1)) as [E | E].
      * unfold _launch in H. rewrite Hw, E in H. simpl in H.
        injection H as <-. exact Inv.
      * rewrite (launch_accepted form screen st Hw E) in H.
        bind_ok H ps Hps'.
        destruct (negb CAMOUFOX_OK); injection H as <-; [exact Inv|].
        cbn [retired worker _set_running new_worker set_file set_profiles].
        pose proof (rebound_worker_running form st) as Hr.
        rewrite Hw in Hr. unfold worker_running in Hr.
        change (retired (rebound form st)) with (retired st).
        destruct (worker (rebound form st)) as [old|]; [|exact Inv].
        constructor; [exact Hr | exact Inv].
  - injection H as <-. unfold _stop.
    destruct (worker st) as [w|]; [destruct (isRunning w)|]; exact Inv.
  - injection H as <-. exact Inv.
  - injection H as <-. unfold thread_finished.
    destruct (worker st) as [w|]; exact Inv.
Qed.

Lemma reachable_retired_finished : forall st, reachable st -> retired_finished st.
Proof.
  intros st H. induction H as [f st Hinit | ev st st' _ IH Hstep].
  - unfold init in Hinit. apply bind_Ok in Hinit. destruct Hinit as [ps [_ H]].
    injection H as <-. constructor.
  - exact (step_retired_finished ev st st' IH Hstep).
Qed.

(** C7. While the thread of [self.worker] runs, a launch request only shows
    the notice in the status bar: the profile list, the file, the worker and
    the workers created before stay as they are, so nothing is queued and no
    worker is created.  In every state the window reaches, at most one worker
    thread is running. *)
Theorem launch_single_session :
  (forall form screen st w,
     worker st = Some w -> isRunning w = true ->
     _launch form screen st = Ok (showMessage "A session is already running" st) /\
     worker (showMessage "A session is already running" st) = worker st /\
     retired (showMessage "A session is already running" st) = retired st /\
     profiles (showMessage "A session is already running" st) = profiles st /\
     file (showMessage "A session is already running" st) = file st) /\
  (forall st, reachable st -> (List.length (active_workers st) <= 1)%nat).
Proof.
  split.
  - intros form screen st w Hw Hr. split; [|repeat split].
    apply launch_while_running. unfold worker_running. rewrite Hw. exact Hr.
  - intros st H. apply retired_finished_active, reachable_retired_finished, H.
Qed.

(** C9, as the code has it. The save action on a selected row and a launch
    request that is accepted both write the form's contents into the slot at
    the selected index and rewrite the whole file.  A launch request that is
    refused, a selection, a stop request, the [stopped] notification and the
    end of the worker thread leave the list and the file as they are. *)
Theorem store_mutations : forall form screen st,
  (forall st', current_index st <> -1 -> _save_changes form st = Ok st' ->
     list_set (profiles st) (current_index st) (gathered form) = Ok (profiles st') /\
     file st' = save_profiles (profiles st')) /\
  (forall st', worker_running st = false -> current_index st <> -1 ->
     _launch form screen st = Ok st' ->
     list_set (profiles st) (current_index st) (gathered form) = Ok (profiles st') /\
     file st' = save_profiles (profiles st')) /\
  (forall st', worker_running st = true \/ current_index st = -1 ->
     _launch form screen st = Ok st' ->
     profiles st' = profiles st /\ file st' = file st) /\
  (forall ev st',
     match ev with
     | EvSelect _ | EvStop _ | EvStopped _ | EvThreadFinished => True
     | _ => False
     end ->
     step ev st = Ok st' -> profiles st' = profiles st /\ file st' = file st).
Proof.
  intros form screen st. split; [|split; [|split]].
  - intros st' Hi H. rewrite (save_changes_selected form st Hi) in H.
    bind_ok H ps Hps. injection H as <-.
    split; [exact Hps | reflexivity].
  - intros st' Hw Hi H. rewrite (launch_accepted form screen st Hw Hi) in H.
    bind_ok H ps Hps.
    destruct (negb CAMOUFOX_OK); injection H as <-; split;
      solve [exact Hps | reflexivity].
  - intros st' Hc H. destruct (worker_running st) eqn:Hw.
    + rewrite (launch_while_running form screen st Hw) in H. injection H as <-.
      split; reflexivity.
    + destruct Hc as [Hc | Hc]; [discriminate Hc|].
      unfold _launch in H. rewrite Hw, Hc in H. simpl in H. injection H as <-.
      split; reflexivity.
  - intros ev st' Hev H. destruct ev; try contradiction; simpl in H;
      injection H as <-.
    + split; reflexivity.
    + unfold _stop. destruct (worker st) as [w|]; [destruct (isRunning w)|];
        split; reflexivity.
    + split; reflexivity.
    + unfold thread_finished. destruct (worker st) as [w|]; split; reflexivity.
Qed.

(** C10. The save action with no row selected does not fail: it appends a
    profile named after the new length of the list, with the default fields
    and the storage directory derived from that name under the fixed root, and
    writes the whole list to the file. *)
Theorem save_changes_without_selection : forall form st,
  current_index st = -1 ->
  exists st',
    _save_changes form st = Ok st' /\
    profiles st' =
      (profiles st ++
       [ mkProfile
           (JStr ("Profile " ++ str_of_int (Z.of_nat (List.length (profiles st)) + 1)))
           1280 800 false
           (JStr (path_join storage_root
                    ("Profile " ++ str_of_int (Z.of_nat (List.length (profiles st)) + 1))))
           false ProxyConfig_default ])%list /\
    file st' = Some (Dumped (JList (map to_dict (profiles st')))) /\
    profiles st' <> profiles st.
Proof.
  intros form st H. unfold _save_changes. rewrite H. simpl.
  eexists. split; [reflexivity|]. split; [reflexivity|]. split; [reflexivity|].
  unfold _new_profile. cbn [profiles showMessage set_file set_profiles].
  intros E. apply (f_equal (@List.length Profile)) in E.
  rewrite length_app in E. simpl in E. lia.
Qed.

(** * Further properties *)

(** ** Saving and loading *)

Lemma mapM_to_dict : forall ps,
  Forall storable ps -> mapM from_dict (map to_dict ps) = Ok ps.
Proof.
  intros ps H. induction H as [|p ps Hp _ IH]; [reflexivity|].
  cbn [map mapM]. rewrite (from_dict_to_dict_fixed p Hp). cbn [bind].
  rewrite IH. reflexivity.
Qed.

Lemma from_dict_storable : forall d p, from_dict d = Ok p -> storable p.
Proof. intros d p H. exact (from_dict_storage d p H). Qed.

Lemma mapM_Ok_Forall2 : forall (A B : Type) (f : A -> result B) l ys,
  mapM f l = Ok ys -> Forall2 (fun x y => f x = Ok y) l ys.
Proof.
  intros A B f l. induction l as [|x l IH]; intros ys H; cbn [mapM] in H.
  - injection H as <-. constructor.
  - apply bind_Ok in H. destruct H as [y [Hy H]].
    apply bind_Ok in H. destruct H as [ys' [Hys H]].
    injection H as <-. constructor; [exact Hy | exact (IH ys' Hys)].
Qed.

Lemma mapM_first_failure : forall (A B : Type) (f : A -> result B) l1 x l2 e,
  Forall (fun y => exists b, f y = Ok b) l1 ->
  f x = Raise e ->
  mapM f (l1 ++ x :: l2) = Raise e.
Proof.
  intros A B f l1 x l2 e H Hx. induction H as [|y l1 [b Hb] _ IH]; cbn [app mapM].
  - rewrite Hx. reflexivity.
  - rewrite Hb. cbn [bind]. rewrite IH. reflexivity.
Qed.

Lemma mapM_from_dict_storable : forall l ps,
  mapM from_dict l = Ok ps -> Forall storable ps.
Proof.
  intros l ps H. apply mapM_Ok_Forall2 in H.
  induction H as [|x p l ps Hx _ IH]; constructor;
    [exact (from_dict_storable x p Hx) | exact IH].
Qed.

(** X1. A list of profiles written by [save_profiles] is read back by
    [load_profiles] as the same list, when each profile has a storage
    directory that counts as true or is the default for its name. *)
Theorem save_load_roundtrip : forall ps,
  Forall storable ps -> load_profiles (save_profiles ps) = Ok ps.
Proof.
  intros ps H. unfold load_profiles, save_profiles, load_text, py_iter.
  cbn [bind]. exact (mapM_to_dict ps H).
Qed.

(** X3. Loading an array of records is all or nothing: when it succeeds
    there is one profile for each record, in order, each the reading of its
    record; when a record fails after records that load, the load raises that
    record's exception and returns no profile. *)
Theorem load_profiles_all_or_nothing : forall l,
  (forall ps, load_profiles (Some (Dumped (JList l))) = Ok ps ->
     Forall2 (fun x p => from_dict x = Ok p) l ps /\
     List.length ps = List.length l) /\
  (forall l1 x l2 e,
     l = (l1 ++ x :: l2)%list ->
     Forall (fun y => exists p, from_dict y = Ok p) l1 ->
     from_dict x = Raise e ->
     load_profiles (Some (Dumped (JList l))) = Raise e).
Proof.
  intros l. unfold load_profiles, load_text, py_iter. cbn [bind]. split.
  - intros ps H. apply mapM_Ok_Forall2 in H. split; [exact H|].
    symmetry. exact (Forall2_length H).
  - intros l1 x l2 e -> H1 Hx. exact (mapM_first_failure _ _ from_dict l1 x l2 e H1 Hx).
Qed.

(** X4. A file whose JSON value is not an array: the empty object and the
    empty string load as no profile at all; any other object or string raises
    [AttributeError], since its keys or characters are not records; null, a
    boolean or a number raises [TypeError].  An array is read record by
    record. *)
Theorem load_profiles_top_level : forall s raw,
  json_load s = Ok raw ->
  load_profiles (Some (Text s)) =
  match raw with
  | JList l => mapM from_dict l
  | JDict [] => Ok []
  | JStr EmptyString => Ok []
  | JDict (_ :: _) => Raise AttributeError
  | JStr (String _ _) => Raise AttributeError
  | JNull | JBool _ | JInt _ | JFloat _ => Raise TypeError
  end.
Proof.
  intros s raw H. unfold load_profiles, load_text. rewrite H. cbn [bind].
  destruct raw as [| b | z | f | t | l | d]; try reflexivity.
  - destruct t; reflexivity.
  - destruct d as [|[k v] d]; reflexivity.
Qed.

(** ** What the window keeps on disk *)

Lemma gathered_storable : forall form, storable (gathered form).
Proof.
  intros form. unfold storable, gathered, strip_or. cbn [persistent_dir name].
  destruct (String.eqb (strip (storageEdit form)) "") eqn:E.
  - right. eexists. split; reflexivity.
  - left. cbn [truthy]. rewrite E. reflexivity.
Qed.

Lemma Forall_update_nth : forall (A : Type) (P : A -> Prop) n x l,
  P x -> Forall P l -> Forall P (update_nth n x l).
Proof.
  intros A P n x l Hx H. revert n. induction H as [|y l Hy Hl IH]; intros [|n]; simpl;
    try constructor; auto.
Qed.

Lemma Forall_remove_nth : forall (A : Type) (P : A -> Prop) n l,
  Forall P l -> Forall P (remove_nth n l).
Proof.
  intros A P n l H. revert n. induction H as [|y l Hy Hl IH]; intros [|n]; simpl;
    try constructor; auto.
Qed.

Lemma list_set_Ok : forall (A : Type) (l : list A) i x l',
  list_set l i x = Ok l' -> exists j, py_index l i = Some j /\ l' = update_nth j x l.
Proof.
  intros A l i x l' H. unfold list_set in H.
  destruct (py_index l i) as [j|]; [|discriminate H].
  injection H as <-. exists j. split; reflexivity.
Qed.

Lemma list_del_Ok : forall (A : Type) (l : list A) i l',
  list_del l i = Ok l' -> exists j, py_index l i = Some j /\ l' = remove_nth j l.
Proof.
  intros A l i l' H. unfold list_del in H.
  destruct (py_index l i) as [j|]; [|discriminate H].
  injection H as <-. exists j. split; reflexivity.
Qed.

Lemma saved_in_step : forall st ps,
  Forall storable ps ->
  in_step_with_disk (set_file (set_profiles st ps) (save_profiles ps)).
Proof.
  intros st ps H. split; [|exact H].
  cbn [file profiles set_file set_profiles].
  unfold load_profiles, save_profiles, load_text, py_iter. cbn [bind].
  exact (mapM_to_dict ps H).
Qed.

Lemma new_profile_in_step : forall st,
  in_step_with_disk st -> in_step_with_disk (_new_profile st).
Proof.
  intros st [_ H]. unfold _new_profile.
  apply (saved_in_step st). apply Forall_app. split; [exact H|].
  constructor; [|constructor]. right. eexists. split; reflexivity.
Qed.

Lemma step_in_step : forall ev st st',
  in_step_with_disk st -> step ev st = Ok st' -> in_step_with_disk st'.
Proof.
  intros ev st st' Inv H.
  destruct ev as [row | | row confirmed | form | form screen | finished | msg | ];
    cbn [step] in H.
  - injection H as <-. exact Inv.
  - injection H as <-. exact (new_profile_in_step st Inv).
  - unfold _delete_profile in H. destruct (row <? 0)%Z.
    + injection H as <-. exact Inv.
    + apply bind_Ok in H. destruct H as [p [_ H]].
      destruct (negb confirmed).
      * injection H as <-. exact Inv.
      * apply bind_Ok in H. destruct H as [ps [Hps H]]. injection H as <-.
        apply list_del_Ok in Hps. destruct Hps as [j [_ ->]].
        apply (saved_in_step (message_box "Confirm Delete" st)).
        apply Forall_remove_nth. exact (proj2 Inv).
  - destruct (Z.eq_dec (current_index st) (-1)) as [E | E].
    + unfold _save_changes in H. rewrite E in H. cbn [Z.eqb Pos.eqb] in H.
      injection H as <-. exact (new_profile_in_step st Inv).
    + rewrite (save_changes_selected form st E) in H.
      apply bind_Ok in H. destruct H as [ps [Hps H]]. injection H as <-.
      apply list_set_Ok in Hps. destruct Hps as [j [_ ->]].
      apply (saved_in_step st).
      apply Forall_update_nth; [apply gathered_storable | exact (proj2 Inv)].
  - destruct (worker_running st) eqn:Hw.
    + rewrite (launch_while_running form screen st Hw) in H.
      injection H as <-. exact Inv.
    + destruct (Z.eq_dec (current_index st) (-1)) as [E | E].
      * unfold _launch in H. rewrite Hw, E in H. cbn [Z.eqb Pos.eqb] in H.
        injection H as <-. exact Inv.
      * rewrite (launch_accepted form screen st Hw E) in H.
        apply bind_Ok in H. destruct H as [ps [Hps H]].
        apply list_set_Ok in Hps. destruct Hps as [j [_ ->]].
        assert (S : Forall storable (update_nth j (gathered form) (profiles st)))
          by (apply Forall_update_nth; [apply gathered_storable | exact (proj2 Inv)]).
        destruct (negb CAMOUFOX_OK); injection H as <-;
          exact (saved_in_step st _ S).
  - injection H as <-. unfold _stop.
    destruct (worker st) as [w|]; [destruct (isRunning w)|]; exact Inv.
  - injection H as <-. exact Inv.
  - injection H as <-. unfold thread_finished.
    destruct (worker st) as [w|]; exact Inv.
Qed.

(** X2. In every state the window reaches, the persisted file reloads to
    exactly the list of profiles in memory. *)
Theorem disk_matches_memory : forall st,
  reachable st -> load_profiles (file st) = Ok (profiles st).
Proof.
  intros st H.
  assert (Inv : in_step_with_disk st).
  { induction H as [f st Hinit | ev st st' _ IH Hstep].
    - unfold init in Hinit. apply bind_Ok in Hinit. destruct Hinit as [ps [Hps H]].
      injection H as <-. split; [exact Hps|]. cbn [profiles].
      unfold load_profiles in Hps. destruct f as [t|].
      + apply bind_Ok in Hps. destruct Hps as [raw [_ Hps]].
        apply bind_Ok in Hps. destruct Hps as [items [_ Hps]].
        exact (mapM_from_dict_storable items ps Hps).
      + injection Hps as <-. constructor.
    - exact (step_in_step ev st st' IH Hstep). }
  exact (proj1 Inv).
Qed.

(** ** Reading a record *)

(** [from_dict] in terms of the lookups it makes. *)
Lemma from_dict_lookups : forall d,
  from_dict (JDict d) =
  (persistent_dir <-
     (if negb (truthy (py_get d "persistent_dir" (JStr "")))
      then default_storage (py_get d "name" (JStr "Profile"))
      else Ok (py_get d "persistent_dir" (JStr ""))) ;;
   viewport_width <- py_int (py_get d "viewport_width" (JInt 1280)) ;;
   viewport_height <- py_int (py_get d "viewport_height" (JInt 800)) ;;
   port <- py_int (py_or (py_get (raw_proxy_of d) "port" (JInt 0)) (JInt 0)) ;;
   Ok (mkProfile (py_get d "name" (JStr "Profile")) viewport_width viewport_height
                 (truthy (py_get d "fullscreen" (JBool false)))
                 persistent_dir
                 (truthy (py_get d "use_geoip" (JBool false)))
                 (mkProxyConfig (py_get (raw_proxy_of d) "host" (JStr "")) port
                                (py_get (raw_proxy_of d) "username" (JStr ""))
                                (py_get (raw_proxy_of d) "password" (JStr ""))))).
Proof. reflexivity. Qed.

(** X5. [from_dict] accepts a record exactly when the storage directory
    counts as true or the name is a string, and [int] accepts both viewport
    values and the port.  A record with no usable storage directory and a name
    that is not a string raises [TypeError], whatever else it holds; a value
    that is not a dict raises [AttributeError]. *)
Theorem from_dict_accepts_iff : forall d,
  ((exists p, from_dict (JDict d) = Ok p) <->
   (truthy (py_get d "persistent_dir" (JStr "")) = true \/
    exists n, py_get d "name" (JStr "Profile") = JStr n) /\
   (exists z, py_int (py_get d "viewport_width" (JInt 1280)) = Ok z) /\
   (exists z, py_int (py_get d "viewport_height" (JInt 800)) = Ok z) /\
   (exists z, py_int (py_or (py_get (raw_proxy_of d) "port" (JInt 0)) (JInt 0)) = Ok z)) /\
  (truthy (py_get d "persistent_dir" (JStr "")) = false ->
   (forall n, py_get d "name" (JStr "Profile") <> JStr n) ->
   from_dict (JDict d) = Raise TypeError) /\
  (forall v, is_dict v = false -> from_dict v = Raise AttributeError).
Proof.
  intros d. split; [|split].
  - rewrite from_dict_lookups. split.
    + intros [p H].
      apply bind_Ok in H. destruct H as [pd [Hpd H]].
      apply bind_Ok in H. destruct H as [vw [Hvw H]].
      apply bind_Ok in H. destruct H as [vh [Hvh H]].
      apply bind_Ok in H. destruct H as [pt [Hpt _]].
      split; [|split; [exists vw; exact Hvw | split; [exists vh; exact Hvh | exists pt; exact Hpt]]].
      destruct (truthy (py_get d "persistent_dir" (JStr ""))); [left; reflexivity|].
      right. cbn [negb] in Hpd. unfold default_storage in Hpd.
      destruct (py_get d "name" (JStr "Profile")); try discriminate Hpd.
      eexists. reflexivity.
    + intros [Hs [[vw Hvw] [[vh Hvh] [pt Hpt]]]].
      rewrite Hvw, Hvh, Hpt.
      destruct (truthy (py_get d "persistent_dir" (JStr ""))) eqn:E; cbn [negb bind].
      * eexists. reflexivity.
      * destruct Hs as [Hs | [n Hn]]; [discriminate Hs|].
        rewrite Hn. cbn [default_storage bind]. eexists. reflexivity.
  - intros Hf Hn. rewrite from_dict_lookups, Hf. cbn [negb].
    unfold default_storage.
    destruct (py_get d "name" (JStr "Profile")) as [| b | z | f | s | l | r];
      try reflexivity.
    exfalso. exact (Hn s eq_refl).
  - intros v Hv. destruct v; try reflexivity. discriminate Hv.
Qed.

(** X6. [from_dict] looks at nothing but its seven keys and the four keys of
    the proxy entry: two records that agree on these load alike, so unknown
    keys and the order of the keys do not matter. *)
Theorem from_dict_reads_known_keys : forall d d',
  (forall k, In k profile_keys -> k <> "proxy" -> dict_get d k = dict_get d' k) ->
  (forall k, In k proxy_keys ->
     dict_get (raw_proxy_of d) k = dict_get (raw_proxy_of d') k) ->
  from_dict (JDict d) = from_dict (JDict d').
Proof.
  intros d d' H Hp. rewrite !from_dict_lookups. unfold py_get.
  assert (K : forall k, In k profile_keys -> k <> "proxy" -> dict_get d k = dict_get d' k)
    by exact H.
  rewrite (K "name") by (unfold profile_keys; simpl; intuition discriminate).
  rewrite (K "persistent_dir") by (unfold profile_keys; simpl; intuition discriminate).
  rewrite (K "viewport_width") by (unfold profile_keys; simpl; intuition discriminate).
  rewrite (K "viewport_height") by (unfold profile_keys; simpl; intuition discriminate).
  rewrite (K "fullscreen") by (unfold profile_keys; simpl; intuition discriminate).
  rewrite (K "use_geoip") by (unfold profile_keys; simpl; intuition discriminate).
  rewrite (Hp "host") by (unfold proxy_keys; simpl; auto).
  rewrite (Hp "port") by (unfold proxy_keys; simpl; auto).
  rewrite (Hp "username") by (unfold proxy_keys; simpl; auto).
  rewrite (Hp "password") by (unfold proxy_keys; simpl; auto).
  reflexivity.
Qed.

(** X7. On a platform whose [os.path.join] never gives an empty path from
    the fixed root, every profile [from_dict] returns has a storage directory
    that counts as true, so a session for it is always persistent. *)
Theorem from_dict_storage_set : forall d p,
  (forall n, path_join storage_root n <> "") ->
  from_dict d = Ok p ->
  truthy (persistent_dir p) = true.
Proof.
  intros d p Hj H. destruct (from_dict_storage d p H) as [Ht | [n [_ Hp]]];
    [exact Ht|].
  rewrite Hp. cbn [truthy]. apply negb_true_iff. apply String.eqb_neq. apply Hj.
Qed.

(** ** The form *)

(** X8. Whatever the form holds, the profile gathered from it has a name
    that is a string and not empty, text fields that are strings, is read back
    unchanged from its serialisation, and has an active proxy exactly when the
    host field is not blank and the port is not 0. *)
Theorem gathered_form_reloads : forall form,
  from_dict (to_dict (gathered form)) = Ok (gathered form) /\
  (exists n, name (gathered form) = JStr n /\ n <> "") /\
  (exists dir, persistent_dir (gathered form) = JStr dir) /\
  host (proxy (gathered form)) = JStr (strip (proxyHostEdit form)) /\
  username (proxy (gathered form)) = JStr (strip (proxyUserEdit form)) /\
  password (proxy (gathered form)) = JStr (strip (proxyPassEdit form)) /\
  (to_proxy_dict (proxy (gathered form)) = None <->
   strip (proxyHostEdit form) = "" \/ proxyPortSpin form = 0).
Proof.
  intros form. split; [|split; [|split; [|split; [|split; [|split]]]]].
  - apply from_dict_to_dict_fixed. apply gathered_storable.
  - unfold gathered, strip_or. cbn [name].
    destruct (String.eqb (strip (nameEdit form)) "") eqn:E.
    + exists "Profile". split; [reflexivity | discriminate].
    + eexists. split; [reflexivity|]. apply String.eqb_neq. exact E.
  - eexists. reflexivity.
  - reflexivity.
  - reflexivity.
  - reflexivity.
  - rewrite to_proxy_dict_None. unfold gathered. cbn [proxy host port].
    rewrite truthy_JStr. reflexivity.
Qed.

(** ** Deleting and creating *)

Lemma remove_nth_split : forall (A : Type) n (l : list A),
  remove_nth n l = (firstn n l ++ skipn (S n) l)%list.
Proof.
  intros A n l. revert n. induction l as [|y l IH]; intros [|n]; simpl;
    try reflexivity. rewrite IH. reflexivity.
Qed.

Lemma remove_nth_last : forall (A : Type) (l : list A) x,
  remove_nth (List.length l) (l ++ [x]) = l.
Proof.
  intros A l x. induction l as [|y l IH]; simpl; [reflexivity|].
  rewrite IH. reflexivity.
Qed.

Lemma py_index_out_of_range : forall (A : Type) (l : list A) i,
  ~ (- Z.of_nat (List.length l) <= i < Z.of_nat (List.length l)) ->
  py_index l i = None.
Proof.
  intros A l i H. unfold py_index.
  destruct (i <? 0)%Z eqn:E.
  - apply Z.ltb_lt in E.
    destruct (0 <=? i + Z.of_nat (List.length l))%Z eqn:E0; [|reflexivity].
    apply Z.leb_le in E0. exfalso. apply H. lia.
  - apply Z.ltb_ge in E.
    destruct (i <? Z.of_nat (List.length l))%Z eqn:E1.
    + apply Z.ltb_lt in E1. exfalso. apply H. lia.
    + destruct (0 <=? i)%Z; reflexivity.
Qed.

Lemma list_get_in_range : forall (A : Type) (l : list A) i,
  0 <= i < Z.of_nat (List.length l) -> exists x, list_get l i = Ok x.
Proof.
  intros A l i H. unfold list_get. rewrite (py_index_in_range _ l i H).
  destruct (nth_error l (Z.to_nat i)) as [x|] eqn:E; [exists x; reflexivity|].
  apply nth_error_None in E. lia.
Qed.

(** X9. Deleting: with no row (a negative row) nothing happens; with a row
    past the end [IndexError] is raised; with a valid row and no confirmation
    the list, the file and the selection stay; with a valid row and a
    confirmation exactly that profile leaves the list, the others keep their
    order, the file is rewritten from the new list and the selection is
    cleared. *)
Theorem delete_profile_cases : forall row confirmed st,
  (row < 0 -> _delete_profile row confirmed st = Ok st) /\
  (Z.of_nat (List.length (profiles st)) <= row ->
   _delete_profile row confirmed st = Raise IndexError) /\
  (0 <= row < Z.of_nat (List.length (profiles st)) -> confirmed = false ->
   exists st', _delete_profile row confirmed st = Ok st' /\
               profiles st' = profiles st /\ file st' = file st /\
               current_index st' = current_index st) /\
  (0 <= row < Z.of_nat (List.length (profiles st)) -> confirmed = true ->
   exists st', _delete_profile row confirmed st = Ok st' /\
               profiles st' = (firstn (Z.to_nat row) (profiles st) ++
                               skipn (S (Z.to_nat row)) (profiles st))%list /\
               S (List.length (profiles st')) = List.length (profiles st) /\
               file st' = save_profiles (profiles st') /\
               current_index st' = -1).
Proof.
  intros row confirmed st. unfold _delete_profile. split; [|split; [|split]].
  - intros H. apply Z.ltb_lt in H. rewrite H. reflexivity.
  - intros H.
    replace (row <? 0)%Z with false by (symmetry; apply Z.ltb_ge; lia).
    unfold list_get. rewrite py_index_out_of_range by lia. reflexivity.
  - intros H ->.
    replace (row <? 0)%Z with false by (symmetry; apply Z.ltb_ge; lia).
    destruct (list_get_in_range _ (profiles st) row H) as [p Hp]. rewrite Hp.
    cbn [bind negb]. eexists. split; [reflexivity|]. repeat split.
  - intros H ->.
    replace (row <? 0)%Z with false by (symmetry; apply Z.ltb_ge; lia).
    destruct (list_get_in_range _ (profiles st) row H) as [p Hp]. rewrite Hp.
    cbn [bind negb]. unfold list_del.
    cbn [profiles message_box]. rewrite (py_index_in_range _ (profiles st) row H).
    cbn [bind]. eexists. split; [reflexivity|].
    cbn [profiles file current_index showMessage set_current_index set_file set_profiles].
    rewrite remove_nth_split. split; [reflexivity|]. split; [|split; reflexivity].
    rewrite length_app, length_firstn, length_skipn. lia.
Qed.

(** X10. Creating a profile and then deleting the last row, confirmed,
    gives back the list as it was, and the file is rewritten from it. *)
Theorem new_then_delete : forall st,
  exists st',
    _delete_profile (Z.of_nat (List.length (profiles st))) true (_new_profile st) = Ok st' /\
    profiles st' = profiles st /\
    file st' = save_profiles (profiles st).
Proof.
  intros st. unfold _delete_profile.
  replace (Z.of_nat (List.length (profiles st)) <? 0)%Z with false
    by (symmetry; apply Z.ltb_ge; lia).
  set (n := Z.of_nat (List.length (profiles st))).
  assert (R : 0 <= n < Z.of_nat (List.length (profiles (_new_profile st)))).
  { unfold _new_profile. cbn [profiles showMessage set_file set_profiles].
    rewrite length_app. cbn [List.length]. lia. }
  destruct (list_get_in_range _ _ n R) as [p Hp]. rewrite Hp. cbn [bind negb].
  unfold list_del. cbn [profiles message_box].
  rewrite (py_index_in_range _ _ n R). cbn [bind].
  eexists. split; [reflexivity|].
  cbn [profiles file showMessage set_current_index set_file set_profiles].
  unfold _new_profile. cbn [profiles showMessage set_file set_profiles].
  unfold n. rewrite Nat2Z.id, remove_nth_last. split; reflexivity.
Qed.

Lemma current_out_of_range : forall st,
  ~ (- Z.of_nat (List.length (profiles st)) <= current_index st
     < Z.of_nat (List.length (profiles st))) ->
  _current st = None.
Proof.
  intros st H. unfold _current.
  destruct (0 <=? current_index st)%Z eqn:E0; [|reflexivity].
  destruct (current_index st <? Z.of_nat (List.length (profiles st)))%Z eqn:E1;
    [|reflexivity].
  apply Z.leb_le in E0. apply Z.ltb_lt in E1. exfalso. apply H. lia.
Qed.

(** X11. Saving or launching with a selection outside the list: when the
    current index is neither -1 nor a valid Python index of the list,
    [_gather_form] fills a new profile and leaves the window as it is, and
    the assignment of the list slot with that profile raises [IndexError];
    that exception is the result of the save action, and of a launch request
    with no session running. *)
Theorem selection_out_of_range : forall form screen st,
  current_index st <> -1 ->
  ~ (- Z.of_nat (List.length (profiles st)) <= current_index st
     < Z.of_nat (List.length (profiles st))) ->
  _gather_form form st = (gathered form, st) /\
  list_set (profiles st) (current_index st) (gathered form) = Raise IndexError /\
  _save_changes form st = Raise IndexError /\
  (worker_running st = false -> _launch form screen st = Raise IndexError).
Proof.
  intros form screen st Hi Hr.
  assert (L : list_set (profiles st) (current_index st) (gathered form) = Raise IndexError).
  { unfold list_set. rewrite (py_index_out_of_range _ _ _ Hr). reflexivity. }
  split; [|split; [exact L|split]].
  - unfold _gather_form. rewrite (current_out_of_range st Hr). reflexivity.
  - rewrite (save_changes_selected form st Hi), L. reflexivity.
  - intros Hw. rewrite (launch_accepted form screen st Hw Hi), L. reflexivity.
Qed.

(** ** The run of the worker, action by action *)

Lemma count_if_app : forall f l1 l2,
  count_if f (l1 ++ l2) = (count_if f l1 + count_if f l2)%nat.
Proof.
  intros f l1 l2. unfold count_if. rewrite filter_app, length_app. reflexivity.
Qed.

Lemma count_if_plain : forall f l,
  (forall a, plain_call a = true -> f a = false) ->
  Forall (fun a => plain_call a = true) l ->
  count_if f l = 0%nat.
Proof.
  intros f l Hf H. unfold count_if. induction H as [|a l Ha _ IH]; [reflexivity|].
  cbn [filter]. rewrite (Hf a Ha). exact IH.
Qed.

Lemma open_session_plain : forall env self,
  Forall (fun a => plain_call a = true) (fst (open_session env self)).
Proof.
  intros env self. unfold open_session.
  destruct (match launch_size self with
            | Some size => size
            | None => (viewport_width (w_profile self), viewport_height (w_profile self))
            end) as [W H].
  destruct (truthy (persistent_dir (w_profile self))); simpl.
  - destruct (makedirs env (persistent_dir (w_profile self))); simpl;
      [|repeat constructor].
    destruct (abspath env (persistent_dir (w_profile self))); simpl;
      [|repeat constructor].
    destruct (px_truthy _); destruct (Camoufox_enter env _); repeat constructor.
  - destruct (px_truthy _); destruct (Camoufox_enter env _); repeat constructor.
Qed.

Lemma idle_plain : forall env fuel k l r,
  idle env fuel k = Some (l, r) -> Forall (fun a => plain_call a = true) l.
Proof.
  intros env fuel. induction fuel as [|fuel IH]; intros k l r H; simpl in H.
  - discriminate H.
  - destruct (stop_requested env k).
    + injection H as <- _. constructor.
    + destruct (sleep env k).
      * destruct (idle env fuel (S k)) as [[l' r']|] eqn:E; [|discriminate H].
        injection H as <- _. constructor; [reflexivity | exact (IH _ _ _ E)].
      * injection H as <- _. repeat constructor.
Qed.

(** The preparation of the page is a series of calls, closed by
    [started_ok] when no call raised. *)
Lemma prepare_page_shape : forall env self WH,
  exists cs,
    Forall (fun a => plain_call a = true) cs /\
    ((exists u msg, prepare_page env self WH = ((cs ++ [Emit (started_ok msg)])%list, Returns u)) \/
     (exists e, prepare_page env self WH = (cs, Raises e))).
Proof.
  intros env self WH. unfold prepare_page.
  destruct (ctx_pages env) as [pages|e]; simpl.
  - destruct (0 <? pages)%nat; simpl.
    + unfold close_extras.
      assert (P : Forall (fun a => plain_call a = true)
                    (map (fun i => Call (Cclose_page i)) (seq 1 (pages - 1)))).
      { apply Forall_forall. intros a Ha. apply in_map_iff in Ha.
        destruct Ha as [i [<- _]]. reflexivity. }
      destruct (fullscreen (w_profile self)); simpl.
      * exists (Call Cpages :: map (fun i => Call (Cclose_page i)) (seq 1 (pages - 1)) ++
                [Call (Cset_viewport_size (fst WH) (snd WH)); Call Cpress_F11])%list.
        split.
        -- constructor; [reflexivity|]. apply Forall_app. split; [exact P|].
           repeat constructor.
        -- left. eexists. eexists. cbn [app]. rewrite <- app_assoc. reflexivity.
      * exists (Call Cpages :: map (fun i => Call (Cclose_page i)) (seq 1 (pages - 1)) ++
                [Call (Cset_viewport_size (fst WH) (snd WH))])%list.
        split.
        -- constructor; [reflexivity|]. apply Forall_app. split; [exact P|].
           repeat constructor.
        -- left. eexists. eexists. cbn [app]. rewrite <- app_assoc. reflexivity.
    + destruct (new_page env); simpl.
      * destruct (fullscreen (w_profile self)); simpl.
        -- exists [Call Cpages; Call Cnew_page;
                   Call (Cset_viewport_size (fst WH) (snd WH)); Call Cpress_F11].
           split; [repeat constructor|]. left. eexists. eexists. reflexivity.
        -- exists [Call Cpages; Call Cnew_page;
                   Call (Cset_viewport_size (fst WH) (snd WH))].
           split; [repeat constructor|]. left. eexists. eexists. reflexivity.
      * exists [Call Cpages; Call Cnew_page]. split; [repeat constructor|].
        right. eexists. reflexivity.
  - exists [Call Cpages]. split; [repeat constructor|]. right. eexists. reflexivity.
Qed.

Lemma plain_not_close : forall a, plain_call a = true -> is_close a = false.
Proof. intros [s|c] H; [reflexivity|]. destruct c; try reflexivity; discriminate H. Qed.

Lemma plain_not_started : forall a, plain_call a = true -> is_started a = false.
Proof. intros [s|c] H; [discriminate H | reflexivity]. Qed.

Lemma plain_not_error : forall a, plain_call a = true -> is_error a = false.
Proof. intros [s|c] H; [discriminate H | reflexivity]. Qed.

Lemma teardown_counts : forall env self b,
  count_if is_close (teardown env self b) = (if b then 1 else 0)%nat /\
  count_if is_started (teardown env self b) = 0%nat /\
  (count_if is_error (teardown env self b) <= 1)%nat.
Proof.
  intros env self b. unfold teardown.
  destruct b; [destruct (ctx_close env)|]; cbv [count_if filter is_close is_started is_error app List.length];
    repeat split; lia.
Qed.

Lemma count_if_cons : forall f a l,
  count_if f (a :: l) = ((if f a then 1 else 0) + count_if f l)%nat.
Proof. intros f a l. unfold count_if. cbn [filter]. destruct (f a); reflexivity. Qed.

(** Count the actions of the phases that only make calls. *)
Ltac count_plain :=
  repeat match goal with
  | P : Forall (fun a => plain_call a = true) ?l |- context [count_if is_close ?l] =>
      rewrite (count_if_plain is_close l plain_not_close P)
  | P : Forall (fun a => plain_call a = true) ?l |- context [count_if is_started ?l] =>
      rewrite (count_if_plain is_started l plain_not_started P)
  | P : Forall (fun a => plain_call a = true) ?l |- context [count_if is_error ?l] =>
      rewrite (count_if_plain is_error l plain_not_error P)
  end.

Ltac count_run Tc Ts Te :=
  rewrite ?count_if_app, ?count_if_cons, ?count_if_app; count_plain;
  rewrite ?Tc, ?Ts;
  match type of Te with
  | (?t <= _)%nat => generalize dependent t; intros te Te
  end;
  cbn [is_close is_started is_error count_if filter List.length];
  repeat split; lia.

(** X12. A run with the library available closes the browser session
    exactly once when it opened one and never otherwise; it emits
    [started_ok] exactly once when the page was prepared and never otherwise;
    and it emits at most two [error] signals. *)
Theorem run_closes_what_it_opens : forall env self fuel log,
  CAMOUFOX_OK = true ->
  run env self fuel = Some log ->
  count_if is_close log = (if session_opened env self then 1 else 0)%nat /\
  count_if is_started log = (if session_started env self then 1 else 0)%nat /\
  (count_if is_error log <= 2)%nat.
Proof.
  intros env self fuel log Hok H. unfold run in H. rewrite Hok in H. cbn [negb] in H.
  unfold session_opened, session_started.
  pose proof (open_session_plain env self) as P1.
  destruct (open_session env self) as [l1 [WH|e]]; cbn [fst snd] in *.
  - destruct (prepare_page_shape env self WH) as [cs [Pcs Hshape]].
    destruct (teardown_counts env self true) as [Tc [Ts Te]].
    destruct Hshape as [[u [msg Hp]] | [e Hp]]; rewrite Hp in *; cbn [snd].
    + destruct (idle env fuel 0) as [[l3 r3]|] eqn:E; [|discriminate H].
      pose proof (idle_plain _ _ _ _ _ E) as P3.
      destruct r3; injection H as <-; count_run Tc Ts Te.
    + injection H as <-. count_run Tc Ts Te.
  - destruct (teardown_counts env self false) as [Tc [Ts Te]].
    injection H as <-. count_run Tc Ts Te.
Qed.

Lemma to_proxy_dict_truthy : forall c,
  px_truthy (to_proxy_dict c) = match to_proxy_dict c with Some _ => true | None => false end.
Proof.
  intros c. unfold to_proxy_dict.
  destruct (negb (truthy (host c)) || negb (truthy (JInt (port c)))); [reflexivity|].
  destruct (truthy (username c)); destruct (truthy (password c)); reflexivity.
Qed.

(** X13. The options the worker hands to the library: never headless; the
    proxy is the profile's proxy dict when the proxy is active and is left out
    otherwise; geo-IP is asked for only with an active proxy and [use_geoip];
    the session is persistent, in the absolute path of the storage directory,
    created before the call, exactly when the storage directory counts as
    true. *)
Theorem camoufox_options : forall env self opts,
  In (Call (CCamoufox opts)) (fst (open_session env self)) ->
  headless opts = false /\
  opt_proxy opts = to_proxy_dict (proxy (w_profile self)) /\
  geoip opts =
    (match to_proxy_dict (proxy (w_profile self)) with
     | Some _ => if use_geoip (w_profile self) then Some true else None
     | None => None
     end) /\
  (truthy (persistent_dir (w_profile self)) = false ->
   persistent_context opts = None /\ user_data_dir opts = None) /\
  (truthy (persistent_dir (w_profile self)) = true ->
   persistent_context opts = Some true /\
   exists u dir,
     makedirs env (persistent_dir (w_profile self)) = Returns u /\
     abspath env (persistent_dir (w_profile self)) = Returns dir /\
     user_data_dir opts = Some dir).
Proof.
  intros env self opts. unfold open_session.
  destruct (match launch_size self with
            | Some size => size
            | None => (viewport_width (w_profile self), viewport_height (w_profile self))
            end) as [W H].
  rewrite to_proxy_dict_truthy.
  destruct (truthy (persistent_dir (w_profile self))); simpl.
  - destruct (makedirs env (persistent_dir (w_profile self))) as [u|e1]; simpl.
    + destruct (abspath env (persistent_dir (w_profile self))) as [dir|e2]; simpl.
      * destruct (to_proxy_dict (proxy (w_profile self))) as [d|];
          destruct (Camoufox_enter env _); simpl;
          intros [Hc | [Hc | [Hc | []]]]; try discriminate Hc;
          injection Hc as <-; cbn [headless opt_proxy geoip persistent_context user_data_dir];
          (split; [reflexivity|]); (split; [reflexivity|]); (split; [reflexivity|]);
          (split; [discriminate|]); intros _; (split; [reflexivity|]);
          exists u, dir; repeat split.
      * intros [Hc | [Hc | []]]; discriminate Hc.
    + intros [Hc | []]; discriminate Hc.
  - destruct (to_proxy_dict (proxy (w_profile self))) as [d|];
      destruct (Camoufox_enter env _); simpl;
      intros [Hc | []]; injection Hc as <-;
      cbn [headless opt_proxy geoip persistent_context user_data_dir];
      (split; [reflexivity|]); (split; [reflexivity|]); (split; [reflexivity|]);
      (split; [intros _; split; reflexivity | discriminate]).
Qed.

(** ** The workers of the window *)





(** X15. Stopping and launching: a stop request on a running worker sets
    its stop flag; when the thread does not end within the wait, a launch
    request is still refused; when it ends within the wait, the worker no
    longer counts as running.  With no running worker a stop request only
    writes the status bar. *)
Theorem stop_then_launch : forall form screen st,
  (forall w, worker st = Some w -> isRunning w = true ->
     (forall finished, exists w',
        worker (_stop finished st) = Some w' /\ w_stop w' = true /\
        w_profile w' = w_profile w /\ launch_size w' = launch_size w) /\
     _launch form screen (_stop false st) =
       Ok (showMessage "A session is already running" (_stop false st)) /\
     worker_running (_stop true st) = false) /\
  (worker_running st = false ->
   forall finished, _stop finished st = showMessage "No session to stop" st).
Proof.
  intros form screen st. split.
  - intros w Hw Hr. split; [|split].
    + intros finished. unfold _stop. rewrite Hw, Hr.
      eexists. split; [reflexivity|]. repeat split.
    + apply launch_while_running. unfold worker_running, _stop. rewrite Hw, Hr.
      cbn [worker showMessage set_worker isRunning]. exact Hr.
    + unfold worker_running, _stop. rewrite Hw, Hr. reflexivity.
  - intros Hw finished. unfold _stop. unfold worker_running in Hw.
    destruct (worker st) as [w|]; [|reflexivity]. rewrite Hw. reflexivity.
Qed.

(** ** More on the slots *)

Lemma nth_error_update_nth_same : forall (A : Type) n (x : A) l,
  (n < List.length l)%nat -> nth_error (update_nth n x l) n = Some x.
Proof.
  intros A n x l. revert n. induction l as [|y l IH]; intros [|n] H; simpl in *;
    try lia; [reflexivity|]. apply IH. lia.
Qed.

Lemma nth_error_update_nth_other : forall (A : Type) n j (x : A) l,
  j <> n -> nth_error (update_nth n x l) j = nth_error l j.
Proof.
  intros A n j x l. revert n j. induction l as [|y l IH]; intros [|n] [|j] H; simpl;
    try reflexivity; try contradiction. apply IH. intros E. apply H. rewrite E. reflexivity.
Qed.

Lemma current_in_list : forall st,
  0 <= current_index st < Z.of_nat (List.length (profiles st)) ->
  exists q, _current st = Some q.
Proof.
  intros st H. unfold _current.
  replace (0 <=? current_index st)%Z with true by (symmetry; apply Z.leb_le; lia).
  replace (current_index st <? Z.of_nat (List.length (profiles st)))%Z with true
    by (symmetry; apply Z.ltb_lt; lia).
  cbn [andb].
  destruct (nth_error (profiles st) (Z.to_nat (current_index st))) as [q|] eqn:E;
    [exists q; reflexivity|].
  apply nth_error_None in E. lia.
Qed.

(** On a valid row the worker keeps its slot, and shows the gathered
    profile exactly when its object is the one in the row. *)
Lemma rebound_on_row : forall form st,
  0 <= current_index st < Z.of_nat (List.length (profiles st)) ->
  worker_slot (rebound form st) = worker_slot st /\
  (worker_slot st = Some (Z.to_nat (current_index st)) ->
   worker (rebound form st) = option_map (with_profile (gathered form)) (worker st)) /\
  (worker_slot st <> Some (Z.to_nat (current_index st)) ->
   worker (rebound form st) = worker st).
Proof.
  intros form st H. destruct (current_in_list st H) as [q Hq].
  unfold rebound. cbn [worker worker_slot]. rewrite Hq.
  split; [reflexivity|]. split.
  - intros ->. rewrite Nat.eqb_refl. reflexivity.
  - intros Hn. destruct (worker_slot st) as [k|]; [|reflexivity].
    destruct (k =? Z.to_nat (current_index st))%nat eqn:E; [|reflexivity].
    apply Nat.eqb_eq in E. subst k. exfalso. apply Hn. reflexivity.
Qed.

(** X16. The save action on a valid row touches that row only: the list
    keeps its length, the row holds the profile gathered from the form, every
    other row is as before, and the selection stays.  The worker stays the
    same object on the same slot; when its profile is the object in that row,
    it shows the gathered profile too, since the row is written in place. *)
Theorem save_changes_frame : forall form st,
  0 <= current_index st < Z.of_nat (List.length (profiles st)) ->
  exists st',
    _save_changes form st = Ok st' /\
    List.length (profiles st') = List.length (profiles st) /\
    nth_error (profiles st') (Z.to_nat (current_index st)) = Some (gathered form) /\
    (forall j, j <> Z.to_nat (current_index st) ->
       nth_error (profiles st') j = nth_error (profiles st) j) /\
    file st' = save_profiles (profiles st') /\
    current_index st' = current_index st /\
    worker_slot st' = worker_slot st /\
    (worker_slot st = Some (Z.to_nat (current_index st)) ->
     worker st' = option_map (with_profile (gathered form)) (worker st)) /\
    (worker_slot st <> Some (Z.to_nat (current_index st)) ->
     worker st' = worker st).
Proof.
  intros form st H.
  assert (Hi : current_index st <> -1) by lia.
  destruct (rebound_on_row form st H) as [Rs [Ra Rb]].
  rewrite (save_changes_selected form st Hi). unfold list_set.
  rewrite (py_index_in_range _ _ _ H). cbn [bind].
  eexists. split; [reflexivity|].
  cbn [profiles file current_index worker worker_slot showMessage set_file set_profiles].
  split; [apply length_update_nth|].
  split; [apply nth_error_update_nth_same; lia|].
  split; [intros j Hj; apply nth_error_update_nth_other; exact Hj|].
  split; [reflexivity|]. split; [reflexivity|].
  split; [exact Rs|]. split; [exact Ra | exact Rb].
Qed.

(** X17. A launch request without the library, with no session running and
    a valid row selected, still writes the form into the list and the file,
    shows the warning, and creates no worker: the earlier workers and the
    running flag stay as they are, and the worker stays the same object, which
    shows the gathered profile when its profile is the object in the row. *)
Theorem launch_without_library : forall form screen st,
  CAMOUFOX_OK = false ->
  worker_running st = false ->
  0 <= current_index st < Z.of_nat (List.length (profiles st)) ->
  exists st',
    _launch form screen st = Ok st' /\
    profiles st' = update_nth (Z.to_nat (current_index st)) (gathered form) (profiles st) /\
    file st' = save_profiles (profiles st') /\
    worker_slot st' = worker_slot st /\
    (worker_slot st = Some (Z.to_nat (current_index st)) ->
     worker st' = option_map (with_profile (gathered form)) (worker st)) /\
    (worker_slot st <> Some (Z.to_nat (current_index st)) ->
     worker st' = worker st) /\
    retired st' = retired st /\
    running st' = running st /\
    dialogs st' = (dialogs st ++ ["Camoufox not available"])%list.
Proof.
  intros form screen st Hno Hw H.
  assert (Hi : current_index st <> -1) by lia.
  destruct (rebound_on_row form st H) as [Rs [Ra Rb]].
  rewrite (launch_accepted form screen st Hw Hi). unfold list_set.
  rewrite (py_index_in_range _ _ _ H), Hno. cbn [bind negb].
  eexists. split; [reflexivity|].
  cbn [profiles file worker worker_slot retired running dialogs message_box
       set_file set_profiles].
  split; [reflexivity|]. split; [reflexivity|].
  split; [exact Rs|]. split; [exact Ra|]. split; [exact Rb|].
  repeat split.
Qed.

(** X20. The worker holds the list's own profile object.  After an accepted
    launch on a valid row, the end of the thread and the [stopped]
    notification, a save on the same row with another form writes into that
    object: the worker then shows the newly gathered profile, with the launch
    size of the launch. *)
Theorem save_writes_into_the_worker : forall form1 form2 screen msg st st1,
  CAMOUFOX_OK = true ->
  worker_running st = false ->
  0 <= current_index st < Z.of_nat (List.length (profiles st)) ->
  _launch form1 screen st = Ok st1 ->
  exists st2,
    _save_changes form2 (_on_stopped msg (thread_finished st1)) = Ok st2 /\
    worker st2 = Some (mkWorker (gathered form2)
                                (Some (effective_size (gathered form1) screen))
                                false false) /\
    nth_error (profiles st2) (Z.to_nat (current_index st)) = Some (gathered form2).
Proof.
  intros form1 form2 screen msg st st1 Hok Hw H HL.
  assert (Hi : current_index st <> -1) by lia.
  rewrite (launch_accepted form1 screen st Hw Hi) in HL. unfold list_set in HL.
  rewrite (py_index_in_range _ _ _ H), Hok in HL. cbn [bind negb] in HL.
  injection HL as <-.
  set (st1 := _on_stopped msg (thread_finished _)).
  assert (C : current_index st1 = current_index st) by reflexivity.
  assert (P : profiles st1 =
              update_nth (Z.to_nat (current_index st)) (gathered form1) (profiles st))
    by reflexivity.
  assert (H1 : 0 <= current_index st1 < Z.of_nat (List.length (profiles st1)))
    by (rewrite C, P, length_update_nth; exact H).
  assert (S1 : worker_slot st1 = Some (Z.to_nat (current_index st1))).
  { unfold st1. cbn [worker_slot _on_stopped _set_running showMessage thread_finished
                     worker new_worker set_worker set_file set_profiles profiles
                     current_index].
    rewrite py_index_in_range by (rewrite length_update_nth; exact H). reflexivity. }
  assert (W1 : worker st1 =
               Some (mkWorker (gathered form1)
                              (Some (effective_size (gathered form1) screen)) false false))
    by reflexivity.
  assert (Hi1 : current_index st1 <> -1) by lia.
  destruct (rebound_on_row form2 st1 H1) as [_ [Ra _]].
  rewrite (save_changes_selected form2 st1 Hi1). unfold list_set.
  rewrite (py_index_in_range _ _ _ H1). cbn [bind].
  eexists. split; [reflexivity|].
  cbn [profiles worker showMessage set_file set_profiles]. split.
  - rewrite (Ra S1), W1. reflexivity.
  - rewrite C. apply nth_error_update_nth_same. rewrite P, length_update_nth. lia.
Qed.

(** X18. The name of a new profile is drawn from the length of the list
    alone: when the list already holds a profile of that name, the list
    afterwards holds two profiles of the same name. *)
Theorem new_profile_may_repeat_a_name : forall st p,
  In p (profiles st) ->
  name p = JStr ("Profile " ++ str_of_int (Z.of_nat (List.length (profiles st)) + 1)) ->
  ~ NoDup (map name (profiles (_new_profile st))).
Proof.
  intros st p Hin Hn. unfold _new_profile.
  cbn [profiles showMessage set_file set_profiles]. rewrite map_app.
  cbn [map name set_persistent_dir]. intros Hnd.
  apply NoDup_remove_2 in Hnd. apply Hnd. rewrite app_nil_r.
  rewrite <- Hn. apply in_map. exact Hin.
Qed.

(** X19. While it idles the worker only sleeps: when the stop flag is first
    seen at the test numbered [k] and every sleep before returns, the idle
    loop makes exactly [k] calls to [sleep] and ends normally. *)
Theorem idle_sleeps_until_stop : forall env k,
  (forall j, (j < k)%nat -> stop_requested env j = false /\ exists u, sleep env j = Returns u) ->
  stop_requested env k = true ->
  forall fuel, (k < fuel)%nat ->
  idle env fuel 0 = Some (repeat (Call Csleep) k, Returns tt).
Proof.
  intros env k Hbefore Hk.
  assert (G : forall n j, (j + n = k)%nat -> forall fuel, (n < fuel)%nat ->
                idle env fuel j = Some (repeat (Call Csleep) n, Returns tt)).
  { induction n as [|n IH]; intros j Hj fuel Hf.
    - destruct fuel as [|fuel]; [lia|]. cbn [idle repeat].
      replace j with k by lia. rewrite Hk. reflexivity.
    - destruct fuel as [|fuel]; [lia|]. cbn [idle repeat].
      destruct (Hbefore j) as [Hs [u Hu]]; [lia|]. rewrite Hs, Hu.
      rewrite (IH (S j)) by lia. reflexivity. }
  intros fuel Hf. exact (G k 0%nat eq_refl fuel Hf).
Qed.

End Program.

(** * The properties on the sample values *)

(** C1 on a profile with a storage directory and on the same profile
    without one, on a POSIX host. *)
Lemma from_dict_to_dict_roundtrip_witness :
  (truthy (persistent_dir sample_profile) = true /\
   from_dict int_of_ascii posixpath_join (to_dict sample_profile) = Ok sample_profile) /\
  (name sample_unset = JStr "Work" /\
   persistent_dir sample_unset = JStr "" /\
   posixpath_join storage_root "Work" <> "" /\
   from_dict int_of_ascii posixpath_join (to_dict sample_unset) =
     Ok (set_persistent_dir sample_unset (JStr (posixpath_join storage_root "Work"))) /\
   from_dict int_of_ascii posixpath_join (to_dict sample_unset) <> Ok sample_unset).
Proof.
  assert (Hne : posixpath_join storage_root "Work" <> "")
    by (vm_compute; discriminate).
  destruct (from_dict_to_dict_roundtrip int_of_ascii posixpath_join sample_profile) as [H1 _].
  destruct (from_dict_to_dict_roundtrip int_of_ascii posixpath_join sample_unset) as [_ H2].
  destruct (H2 "Work" eq_refl eq_refl) as [H3 H4].
  split.
  - split; [reflexivity | exact (H1 eq_refl)].
  - split; [reflexivity|]. split; [reflexivity|]. split; [exact Hne|].
    split; [exact H3 | exact (H4 Hne)].
Defined.

(** C8 on a record that only gives a name. *)
Lemma from_dict_idempotent_witness :
  from_dict int_of_ascii posixpath_join (JDict [("name", JStr "Work")]) =
    Ok (mkProfile (JStr "Work") 1280 800 false (JStr (posixpath_join storage_root "Work"))
                  false ProxyConfig_default) /\
  from_dict int_of_ascii posixpath_join
    (to_dict (mkProfile (JStr "Work") 1280 800 false
                        (JStr (posixpath_join storage_root "Work"))
                        false ProxyConfig_default)) =
    Ok (mkProfile (JStr "Work") 1280 800 false (JStr (posixpath_join storage_root "Work"))
                  false ProxyConfig_default).
Proof.
  split; [reflexivity|].
  apply (from_dict_idempotent int_of_ascii posixpath_join (JDict [("name", JStr "Work")])).
  reflexivity.
Defined.

(** C2 on the sample proxy, which has a user name and no password. *)
Lemma to_proxy_dict_spec_witness :
  (host sample_proxy = JStr "proxy.local" /\
   username sample_proxy = JStr "alice" /\
   password sample_proxy = JStr "") /\
  (to_proxy_dict str_of_scalar sample_proxy = None <-> "proxy.local" = "" \/ port sample_proxy = 0) /\
  (forall d, to_proxy_dict str_of_scalar sample_proxy = Some d ->
     dict_get d "server" = Some (JStr "http://proxy.local:8080") /\
     dict_get d "username" = Some (JStr "alice") /\
     ~ dict_get d "password" <> None).
Proof.
  destruct (to_proxy_dict_spec str_of_scalar sample_proxy "proxy.local" "alice" ""
              eq_refl eq_refl eq_refl) as [H1 H2].
  split; [repeat split|]. split; [exact H1|].
  intros d Hd. destruct (H2 d Hd) as [Hs [_ [Hu [Hp _]]]].
  split; [exact Hs|]. split.
  - apply Hu. discriminate.
  - intros H. apply Hp in H. apply H. reflexivity.
Defined.

(** C3 on the sample worker: a stop seen at the third test of the idle loop
    with the library available, and a run without the library. *)
Lemma run_stopped_exactly_once_witness :
  (loop_exits (quiet_env 2) 2 /\
   exists log, run str_of_scalar true (quiet_env 2) sample_worker 3 = Some log /\
               count_stopped log = 1%nat /\
               exists l m, log = (l ++ [Emit (stopped m)])%list) /\
  (exists msg, run str_of_scalar false (quiet_env 2) sample_worker 3 = Some [Emit (error msg)] /\
               count_stopped [Emit (error msg)] = 0%nat).
Proof.
  assert (Hx : loop_exits (quiet_env 2) 2) by (left; reflexivity).
  destruct (run_stopped_exactly_once str_of_scalar true (quiet_env 2) sample_worker)
    as [H1 _].
  destruct (run_stopped_exactly_once str_of_scalar false (quiet_env 2) sample_worker)
    as [_ H2].
  split.
  - split; [exact Hx|]. destruct (H1 eq_refl) as [Ha Hb].
    destruct (Hb 2%nat Hx 3%nat (le_n 3)) as [log [Hlog Hc]].
    exists log. split; [exact Hlog|]. split; [exact Hc|].
    exact (proj2 (Ha 3%nat log Hlog)).
  - apply (H2 eq_refl).
Defined.

(** C3, counterexample. When the library is not available the run ends
    with no [stopped] at all. *)
Lemma run_unavailable_never_stopped :
  run str_of_scalar false (quiet_env 2) sample_worker 3 =
    Some [Emit (error "Camoufox not available. Install with: pip install -U 'camoufox[geoip]' and run 'camoufox fetch'.")] /\
  count_stopped
    [Emit (error "Camoufox not available. Install with: pip install -U 'camoufox[geoip]' and run 'camoufox fetch'.")]
  <> 1%nat.
Proof.
  split; [reflexivity | vm_compute; discriminate].
Qed.

(** C4 on the sample values: the viewport 1280 by 800 asks for a window of
    1282 by 888. *)
Lemma launch_window_size_witness :
  (truthy (persistent_dir sample_profile) = true ->
   exists u dir, makedirs (quiet_env 2) (persistent_dir sample_profile) = Returns u /\
                 abspath (quiet_env 2) (persistent_dir sample_profile) = Returns dir) /\
  (exists opts,
     In (Call (CCamoufox opts))
        (fst (open_session str_of_scalar (quiet_env 2)
                (mkWorker sample_profile (Some (effective_size sample_profile (1920, 1040)))
                          false true))) /\
     window opts = (1282, 888)) /\
  (worker_running sample_window = false /\ current_index sample_window <> -1 /\
   exists st', _launch strip_ascii posixpath_join true sample_form (1920, 1040) sample_window = Ok st' /\
               worker st' = Some (mkWorker (gathered strip_ascii posixpath_join sample_form)
                                           (Some (1280, 800)) false true)).
Proof.
  destruct (launch_window_size strip_ascii posixpath_join str_of_scalar true) as [H1 [H2 [H3 _]]].
  assert (Hfs : truthy (persistent_dir sample_profile) = true ->
                exists u dir, makedirs (quiet_env 2) (persistent_dir sample_profile) = Returns u /\
                              abspath (quiet_env 2) (persistent_dir sample_profile) = Returns dir).
  { intros _. exists tt, "/data/work". split; reflexivity. }
  assert (Hi : current_index sample_window <> -1) by (simpl; lia).
  split; [exact Hfs|]. split.
  - destruct (H2 sample_profile (1920, 1040) (quiet_env 2) Hfs) as [opts [Hin _]].
    exists opts. split; [exact Hin|].
    exact (H1 sample_profile (1920, 1040) (quiet_env 2) opts Hin).
  - split; [reflexivity|]. split; [exact Hi|].
    eexists. split; [reflexivity|].
    apply (H3 sample_form (1920, 1040) sample_window _ eq_refl eq_refl Hi). reflexivity.
Defined.

(** C5 on a file that holds an unfinished array. *)
Lemma load_profiles_malformed_witness :
  json_load_sample "[{" = Raise JSONDecodeError /\
  load_profiles int_of_ascii posixpath_join json_load_sample (Some (Text "[{")) = Raise JSONDecodeError /\
  init int_of_ascii posixpath_join json_load_sample (Some (Text "[{")) = Raise JSONDecodeError.
Proof.
  split; [reflexivity|].
  apply (load_profiles_malformed int_of_ascii posixpath_join json_load_sample "[{" JSONDecodeError).
  reflexivity.
Defined.

(** C6 on a record whose proxy is a text, on one whose port is null, on one
    whose port is a text that is not a number and on one whose port is an
    infinity. *)
Lemma from_dict_proxy_defaulting_witness :
  (dict_get record_proxy_text "proxy" = Some (JStr "proxy.local:8080") /\
   is_dict (JStr "proxy.local:8080") = false /\
   from_dict int_of_ascii posixpath_join (JDict record_proxy_text) =
     from_dict int_of_ascii posixpath_join (JDict (dict_set "proxy" (JDict []) record_proxy_text)) /\
   forall p, from_dict int_of_ascii posixpath_join (JDict record_proxy_text) = Ok p ->
             proxy p = ProxyConfig_default) /\
  (truthy (py_get [("host", JStr "proxy.local"); ("port", JNull)] "port" (JInt 0)) = false /\
   from_dict int_of_ascii posixpath_join (JDict record_port_null) =
     from_dict int_of_ascii posixpath_join
       (JDict (dict_set "proxy"
                 (JDict (dict_set "port" (JInt 0)
                           [("host", JStr "proxy.local"); ("port", JNull)]))
                 record_port_null)) /\
   forall p, from_dict int_of_ascii posixpath_join (JDict record_port_null) = Ok p -> port (proxy p) = 0) /\
  (truthy (py_get [("host", JStr "proxy.local"); ("port", JStr "abc")] "port" (JInt 0)) = true /\
   py_int int_of_ascii (py_get [("host", JStr "proxy.local"); ("port", JStr "abc")] "port" (JInt 0)) =
     Raise ValueError /\
   from_dict int_of_ascii posixpath_join (JDict record_port_text) = Raise ValueError) /\
  (truthy (JFloat (FInf false)) = true /\
   py_int int_of_ascii (JFloat (FInf false)) = Raise OverflowError /\
   from_dict int_of_ascii posixpath_join (JDict record_port_infinity) = Raise OverflowError).
Proof.
  destruct (from_dict_proxy_defaulting int_of_ascii posixpath_join record_proxy_text) as [H1 _].
  destruct (from_dict_proxy_defaulting int_of_ascii posixpath_join record_port_null) as [_ [H2 _]].
  destruct (from_dict_proxy_defaulting int_of_ascii posixpath_join record_port_text)
    as [_ [_ [H3 _]]].
  destruct (from_dict_proxy_defaulting int_of_ascii posixpath_join record_port_infinity)
    as [_ [_ [H4 H5]]].
  split; [|split; [|split]].
  - destruct (H1 (JStr "proxy.local:8080") eq_refl eq_refl) as [Ha Hb].
    split; [reflexivity|]. split; [reflexivity|]. split; [exact Ha | exact Hb].
  - destruct (H2 _ eq_refl eq_refl) as [_ [Ha Hb]].
    split; [reflexivity|]. split; [exact Ha | exact Hb].
  - split; [reflexivity|]. split; [reflexivity|].
    destruct (H3 _ ValueError eq_refl eq_refl eq_refl) as [_ Ha].
    exact (Ha _ eq_refl).
  - split; [reflexivity|]. split; [reflexivity|].
    destruct (H5 (JFloat (FInf false)) OverflowError eq_refl eq_refl)
      as [[s [Hs _]] | [[Hn _] | [[negative [_ He]] | [_ He]]]];
      [discriminate Hs | discriminate Hn | |discriminate He].
    destruct (H4 _ OverflowError eq_refl eq_refl eq_refl) as [_ Ha].
    exact (Ha _ eq_refl).
Defined.

(** On ASCII text [int] raises nothing but [ValueError]. *)
Lemma int_of_ascii_raises : forall s e, int_of_ascii s = Raise e -> e = ValueError.
Proof.
  assert (L : forall t e, scan_literal t = Raise e -> e = ValueError).
  { intros t e H. unfold scan_literal in H.
    assert (G : match scan_digits t false 0 0%nat with
                | Some (v, n) =>
                    if (n =? 0)%nat then Raise ValueError
                    else if (int_max_str_digits <? n)%nat then Raise ValueError
                    else Ok v
                | None => Raise ValueError
                end = Raise e -> e = ValueError).
    { destruct (scan_digits t false 0 0%nat) as [[v n]|]; [|congruence].
      destruct (n =? 0)%nat; [congruence|].
      destruct (int_max_str_digits <? n)%nat; congruence. }
    destruct t as [|c r]; [exact (G H)|].
    destruct (Ascii.eqb c "_") eqn:E.
    - apply Ascii.eqb_eq in E. subst c. congruence.
    - destruct c as [[] [] [] [] [] [] [] []]; try exact (G H); discriminate E. }
  intros s e H. unfold int_of_ascii in H.
  destruct (drop_blanks (skip_blanks s)) as [|c r]; [exact (L _ _ H)|].
  destruct (Ascii.eqb c "+") eqn:Ep.
  - apply Ascii.eqb_eq in Ep. subst c. exact (L _ _ H).
  - destruct (Ascii.eqb c "-") eqn:Em.
    + apply Ascii.eqb_eq in Em. subst c.
      destruct (scan_literal r) as [v|e'] eqn:Er; [discriminate H|].
      simpl in H. injection H as <-. exact (L _ _ Er).
    + destruct c as [[] [] [] [] [] [] [] []];
        try exact (L _ _ H); first [discriminate Ep | discriminate Em].
Qed.

(** C6, counterexample. On a port that is not a number [from_dict] raises
    instead of reading the port as 0. *)
Lemma from_dict_port_text_raises :
  from_dict int_of_ascii posixpath_join (JDict record_port_text) = Raise ValueError.
Proof. reflexivity. Qed.

(** C7 on the sample window while its session runs, and on the window as it
    is built from a missing file. *)
Lemma launch_single_session_witness :
  (worker sample_window_running = Some sample_worker /\ isRunning sample_worker = true /\
   _launch strip_ascii posixpath_join true sample_form (1920, 1040) sample_window_running =
     Ok (showMessage "A session is already running" sample_window_running)) /\
  (reachable strip_ascii int_of_ascii posixpath_join str_of_scalar json_load_sample true
             (mkWindow [] (-1) None [] None "Ready" [] false None) /\
   (List.length (active_workers (mkWindow [] (-1) None [] None "Ready" [] false None)) <= 1)%nat).
Proof.
  destruct (launch_single_session strip_ascii int_of_ascii posixpath_join str_of_scalar json_load_sample true)
    as [H1 H2].
  assert (R : reachable strip_ascii int_of_ascii posixpath_join str_of_scalar json_load_sample true
                        (mkWindow [] (-1) None [] None "Ready" [] false None)).
  { apply (reach_init _ _ _ _ _ _ None). reflexivity. }
  split.
  - split; [reflexivity|]. split; [reflexivity|].
    exact (proj1 (H1 sample_form (1920, 1040) sample_window_running sample_worker
                     eq_refl eq_refl)).
  - split; [exact R | exact (H2 _ R)].
Defined.

(** C9 on the sample window: saving and launching with the edited form write
    the same list and file; a launch while a session runs, and a selection,
    change neither. *)
Lemma store_mutations_witness :
  (current_index sample_window <> -1 /\ worker_running sample_window = false /\
   exists s1 s2,
     _save_changes strip_ascii posixpath_join sample_form sample_window = Ok s1 /\
     _launch strip_ascii posixpath_join true sample_form (1920, 1040) sample_window = Ok s2 /\
     list_set (profiles sample_window) 0 (gathered strip_ascii posixpath_join sample_form) = Ok (profiles s1) /\
     list_set (profiles sample_window) 0 (gathered strip_ascii posixpath_join sample_form) = Ok (profiles s2) /\
     file s1 = save_profiles (profiles s1) /\ file s2 = save_profiles (profiles s2)) /\
  (worker_running sample_window_running = true /\
   exists s3,
     _launch strip_ascii posixpath_join true sample_form (1920, 1040) sample_window_running = Ok s3 /\
     profiles s3 = profiles sample_window_running /\ file s3 = file sample_window_running) /\
  (exists s4,
     step strip_ascii posixpath_join str_of_scalar true (EvSelect (-1)) sample_window = Ok s4 /\
     profiles s4 = profiles sample_window /\ file s4 = file sample_window).
Proof.
  destruct (store_mutations strip_ascii posixpath_join str_of_scalar true sample_form (1920, 1040)
              sample_window) as [H1 [H2 [_ H4]]].
  destruct (store_mutations strip_ascii posixpath_join str_of_scalar true sample_form (1920, 1040)
              sample_window_running) as [_ [_ [H3 _]]].
  assert (Hi : current_index sample_window <> -1) by (simpl; lia).
  split; [|split].
  - split; [exact Hi|]. split; [reflexivity|].
    eexists. eexists. split; [reflexivity|]. split; [reflexivity|].
    destruct (H1 _ Hi eq_refl) as [Ha Hb].
    destruct (H2 _ eq_refl Hi eq_refl) as [Hc Hd].
    split; [exact Ha|]. split; [exact Hc|]. split; [exact Hb | exact Hd].
  - split; [reflexivity|]. eexists. split; [reflexivity|].
    exact (H3 _ (or_introl eq_refl) eq_refl).
  - eexists. split; [reflexivity|]. exact (H4 (EvSelect (-1)) _ I eq_refl).
Defined.

(** C9, counterexample. A launch with an edited form writes the renamed
    profile into the list and rewrites the file. *)
Lemma launch_rewrites_store :
  exists st',
    _launch strip_ascii posixpath_join true sample_form (1920, 1040) sample_window = Ok st' /\
    profiles st' <> profiles sample_window /\
    file st' <> file sample_window.
Proof.
  eexists. split; [reflexivity|]. split; vm_compute; discriminate.
Qed.

(** C10 on the sample window with no row selected. *)
Lemma save_changes_without_selection_witness :
  current_index sample_window_unselected = -1 /\
  exists st',
    _save_changes strip_ascii posixpath_join sample_form sample_window_unselected = Ok st' /\
    profiles st' =
      [ sample_profile;
        mkProfile (JStr "Profile 2") 1280 800 false
                  (JStr (posixpath_join storage_root "Profile 2")) false
                  ProxyConfig_default ] /\
    file st' = Some (Dumped (JList (map to_dict (profiles st')))).
Proof.
  split; [reflexivity|].
  destruct (save_changes_without_selection strip_ascii posixpath_join sample_form
              sample_window_unselected eq_refl) as [st' [H1 [H2 [H3 _]]]].
  exists st'. split; [exact H1|]. split; [exact H2 | exact H3].
Defined.

(** * The further properties on the sample values *)

Lemma posixpath_join_root : forall n, posixpath_join storage_root n <> "".
Proof.
  intros n. unfold posixpath_join.
  destruct (String.prefix "/" n) eqn:E.
  - destruct n; [discriminate E | discriminate].
  - cbv [storage_root String.eqb Ascii.eqb Bool.eqb ends_with_slash String.get
         String.length String.append ascii_of_nat ascii_of_pos Nat.sub orb].
    discriminate.
Qed.

(** X1 on the sample profile. *)
Lemma save_load_roundtrip_witness :
  Forall (storable posixpath_join) [sample_profile] /\
  load_profiles int_of_ascii posixpath_join json_load_sample (save_profiles [sample_profile]) =
    Ok [sample_profile].
Proof.
  assert (H : Forall (storable posixpath_join) [sample_profile])
    by (constructor; [left; reflexivity | constructor]).
  split; [exact H|].
  exact (save_load_roundtrip int_of_ascii posixpath_join json_load_sample [sample_profile] H).
Defined.

(** X2 on the window after one new profile. *)
Lemma disk_matches_memory_witness :
  reachable strip_ascii int_of_ascii posixpath_join str_of_scalar json_load_sample true
            (_new_profile posixpath_join empty_window) /\
  load_profiles int_of_ascii posixpath_join json_load_sample
                (file (_new_profile posixpath_join empty_window)) =
    Ok (profiles (_new_profile posixpath_join empty_window)).
Proof.
  assert (R : reachable strip_ascii int_of_ascii posixpath_join str_of_scalar json_load_sample true
                        (_new_profile posixpath_join empty_window)).
  { apply (reach_step _ _ _ _ _ _ EvNew empty_window); [|reflexivity].
    apply (reach_init _ _ _ _ _ _ None). reflexivity. }
  split; [exact R|].
  exact (disk_matches_memory strip_ascii int_of_ascii posixpath_join str_of_scalar json_load_sample true _ R).
Defined.

(** X3 on the two sample records: the second one fails the load. *)
Lemma load_profiles_all_or_nothing_witness :
  (forall ps,
     load_profiles int_of_ascii posixpath_join json_load_sample
                   (Some (Dumped (JList [JDict [("name", JStr "Work")]]))) = Ok ps ->
     List.length ps = 1%nat) /\
  (Forall (fun y => exists p, from_dict int_of_ascii posixpath_join y = Ok p)
          [JDict [("name", JStr "Work")]] /\
   from_dict int_of_ascii posixpath_join (JDict record_port_text) = Raise ValueError /\
   load_profiles int_of_ascii posixpath_join json_load_sample (Some (Dumped (JList sample_records))) =
     Raise ValueError).
Proof.
  destruct (load_profiles_all_or_nothing int_of_ascii posixpath_join json_load_sample
              [JDict [("name", JStr "Work")]]) as [H1 _].
  destruct (load_profiles_all_or_nothing int_of_ascii posixpath_join json_load_sample sample_records)
    as [_ H2].
  assert (F : Forall (fun y => exists p, from_dict int_of_ascii posixpath_join y = Ok p)
                     [JDict [("name", JStr "Work")]]).
  { constructor; [eexists; reflexivity | constructor]. }
  split.
  - intros ps Hps. exact (proj2 (H1 ps Hps)).
  - split; [exact F|]. split; [reflexivity|].
    exact (H2 [JDict [("name", JStr "Work")]] (JDict record_port_text) [] ValueError
              eq_refl F eq_refl).
Defined.

(** X4 on a file that holds an empty object. *)
Lemma load_profiles_top_level_witness :
  json_load_sample "{}" = Ok (JDict []) /\
  load_profiles int_of_ascii posixpath_join json_load_sample (Some (Text "{}")) = Ok [].
Proof.
  split; [reflexivity|].
  exact (load_profiles_top_level int_of_ascii posixpath_join json_load_sample "{}" (JDict []) eq_refl).
Defined.

(** X5 on a record whose name is a number, and on a list in place of a
    record. *)
Lemma from_dict_accepts_iff_witness :
  (truthy (py_get record_name_number "persistent_dir" (JStr "")) = false /\
   (forall n, py_get record_name_number "name" (JStr "Profile") <> JStr n) /\
   from_dict int_of_ascii posixpath_join (JDict record_name_number) = Raise TypeError) /\
  (is_dict (JList []) = false /\ from_dict int_of_ascii posixpath_join (JList []) = Raise AttributeError).
Proof.
  destruct (from_dict_accepts_iff int_of_ascii posixpath_join record_name_number) as [_ [H2 H3]].
  assert (Hn : forall n, py_get record_name_number "name" (JStr "Profile") <> JStr n)
    by (intros n; discriminate).
  split.
  - split; [reflexivity|]. split; [exact Hn | exact (H2 eq_refl Hn)].
  - split; [reflexivity | exact (H3 (JList []) eq_refl)].
Defined.

(** X6 on a record with an unknown key. *)
Lemma from_dict_reads_known_keys_witness :
  (forall k, In k profile_keys -> k <> "proxy" ->
     dict_get record_with_note k = dict_get [("name", JStr "Work")] k) /\
  (forall k, In k proxy_keys ->
     dict_get (raw_proxy_of record_with_note) k =
     dict_get (raw_proxy_of [("name", JStr "Work")]) k) /\
  from_dict int_of_ascii posixpath_join (JDict record_with_note) =
    from_dict int_of_ascii posixpath_join (JDict [("name", JStr "Work")]).
Proof.
  assert (H1 : forall k, In k profile_keys -> k <> "proxy" ->
                 dict_get record_with_note k = dict_get [("name", JStr "Work")] k).
  { intros k Hk _. unfold profile_keys in Hk. simpl in Hk.
    repeat (destruct Hk as [<- | Hk]; [reflexivity|]). contradiction. }
  assert (H2 : forall k, In k proxy_keys ->
                 dict_get (raw_proxy_of record_with_note) k =
                 dict_get (raw_proxy_of [("name", JStr "Work")]) k).
  { intros k _. reflexivity. }
  split; [exact H1|]. split; [exact H2|].
  exact (from_dict_reads_known_keys int_of_ascii posixpath_join record_with_note
           [("name", JStr "Work")] H1 H2).
Defined.

(** X7 on a POSIX host, for a record that only gives a name. *)
Lemma from_dict_storage_set_witness :
  (forall n, posixpath_join storage_root n <> "") /\
  from_dict int_of_ascii posixpath_join (JDict [("name", JStr "Work")]) =
    Ok (mkProfile (JStr "Work") 1280 800 false (JStr (posixpath_join storage_root "Work"))
                  false ProxyConfig_default) /\
  truthy (JStr (posixpath_join storage_root "Work")) = true.
Proof.
  split; [exact posixpath_join_root|]. split; [reflexivity|].
  exact (from_dict_storage_set int_of_ascii posixpath_join (JDict [("name", JStr "Work")]) _
           posixpath_join_root eq_refl).
Defined.

(** X9 on the sample window. *)
Lemma delete_profile_cases_witness :
  (-1 < 0 /\ _delete_profile str_of_scalar (-1) true sample_window = Ok sample_window) /\
  (Z.of_nat (List.length (profiles sample_window)) <= 1 /\
   _delete_profile str_of_scalar 1 true sample_window = Raise IndexError) /\
  (0 <= 0 < Z.of_nat (List.length (profiles sample_window)) /\
   (exists st', _delete_profile str_of_scalar 0 false sample_window = Ok st' /\
                profiles st' = profiles sample_window /\ file st' = file sample_window) /\
   (exists st', _delete_profile str_of_scalar 0 true sample_window = Ok st' /\
                profiles st' = [] /\ file st' = save_profiles [] /\
                current_index st' = -1)).
Proof.
  assert (R : 0 <= 0 < Z.of_nat (List.length (profiles sample_window))) by (simpl; lia).
  destruct (delete_profile_cases str_of_scalar (-1) true sample_window) as [H1 _].
  destruct (delete_profile_cases str_of_scalar 1 true sample_window) as [_ [H2 _]].
  destruct (delete_profile_cases str_of_scalar 0 false sample_window) as [_ [_ [H3 _]]].
  destruct (delete_profile_cases str_of_scalar 0 true sample_window) as [_ [_ [_ H4]]].
  split; [split; [lia | apply H1; lia]|].
  split; [split; [simpl; lia | apply H2; simpl; lia]|].
  split; [exact R|]. split.
  - destruct (H3 R eq_refl) as [st' [Ha [Hb [Hc _]]]]. exists st'. repeat split; assumption.
  - destruct (H4 R eq_refl) as [st' [Ha [Hb [_ [Hc Hd]]]]]. exists st'.
    split; [exact Ha|]. split; [exact Hb|]. split; [|exact Hd].
    rewrite Hc, Hb. reflexivity.
Defined.

(** X11 on the sample window with a current index of 5. *)
Lemma selection_out_of_range_witness :
  current_index sample_window_astray <> -1 /\
  ~ (- Z.of_nat (List.length (profiles sample_window_astray))
     <= current_index sample_window_astray
     < Z.of_nat (List.length (profiles sample_window_astray))) /\
  _gather_form strip_ascii posixpath_join sample_form sample_window_astray =
    (gathered strip_ascii posixpath_join sample_form, sample_window_astray) /\
  list_set (profiles sample_window_astray) (current_index sample_window_astray)
           (gathered strip_ascii posixpath_join sample_form) = Raise IndexError /\
  _save_changes strip_ascii posixpath_join sample_form sample_window_astray = Raise IndexError /\
  _launch strip_ascii posixpath_join true sample_form (1920, 1040) sample_window_astray = Raise IndexError.
Proof.
  assert (Hi : current_index sample_window_astray <> -1) by (simpl; lia).
  assert (Hr : ~ (- Z.of_nat (List.length (profiles sample_window_astray))
                  <= current_index sample_window_astray
                  < Z.of_nat (List.length (profiles sample_window_astray))))
    by (simpl; lia).
  destruct (selection_out_of_range strip_ascii posixpath_join true sample_form (1920, 1040)
              sample_window_astray Hi Hr) as [H1 [H2 [H3 H4]]].
  split; [exact Hi|]. split; [exact Hr|]. split; [exact H1|]. split; [exact H2|].
  split; [exact H3 | exact (H4 eq_refl)].
Defined.

(** X12 on the sample worker, stopped at the third test. *)
Lemma run_closes_what_it_opens_witness :
  exists log,
    run str_of_scalar true (quiet_env 2) sample_worker 3 = Some log /\
    count_if is_close log = 1%nat /\
    count_if is_started log = 1%nat /\
    (count_if is_error log <= 2)%nat.
Proof.
  eexists. split; [reflexivity|].
  exact (run_closes_what_it_opens str_of_scalar true (quiet_env 2) sample_worker 3 _
           eq_refl eq_refl).
Defined.

(** X13 on the sample worker: a persistent session behind the proxy, with
    geo-IP. *)
Lemma camoufox_options_witness :
  exists opts,
    In (Call (CCamoufox opts)) (fst (open_session str_of_scalar (quiet_env 2) sample_worker)) /\
    headless opts = false /\
    opt_proxy opts = Some [("server", JStr "http://proxy.local:8080");
                           ("username", JStr "alice")] /\
    geoip opts = Some true /\
    persistent_context opts = Some true.
Proof.
  eexists. split; [right; right; left; reflexivity|].
  destruct (camoufox_options str_of_scalar (quiet_env 2) sample_worker _
              (or_intror (or_intror (or_introl eq_refl)))) as [H1 [H2 [H3 [_ H5]]]].
  split; [exact H1|]. split; [exact H2|]. split; [exact H3|].
  exact (proj1 (H5 eq_refl)).
Defined.


(** X15 on the sample window, running and not. *)
Lemma stop_then_launch_witness :
  (worker sample_window_running = Some sample_worker /\ isRunning sample_worker = true /\
   _launch strip_ascii posixpath_join true sample_form (1920, 1040) (_stop false sample_window_running) =
     Ok (showMessage "A session is already running" (_stop false sample_window_running)) /\
   worker_running (_stop true sample_window_running) = false) /\
  (worker_running sample_window = false /\
   _stop true sample_window = showMessage "No session to stop" sample_window).
Proof.
  destruct (stop_then_launch strip_ascii posixpath_join true sample_form (1920, 1040)
              sample_window_running) as [H1 _].
  destruct (stop_then_launch strip_ascii posixpath_join true sample_form (1920, 1040) sample_window)
    as [_ H2].
  destruct (H1 sample_worker eq_refl eq_refl) as [_ [Ha Hb]].
  split.
  - split; [reflexivity|]. split; [reflexivity|]. split; [exact Ha | exact Hb].
  - split; [reflexivity | exact (H2 eq_refl true)].
Defined.

(** X16 on the sample window and the edited form, with no session and while
    the session of row 0 runs. *)
Lemma save_changes_frame_witness :
  0 <= current_index sample_window < Z.of_nat (List.length (profiles sample_window)) /\
  (exists st',
     _save_changes strip_ascii posixpath_join sample_form sample_window = Ok st' /\
     List.length (profiles st') = 1%nat /\
     nth_error (profiles st') 0 = Some (gathered strip_ascii posixpath_join sample_form) /\
     worker st' = None) /\
  (worker_slot sample_window_running = Some 0%nat /\
   exists st',
     _save_changes strip_ascii posixpath_join sample_form sample_window_running = Ok st' /\
     worker st' = Some (mkWorker (gathered strip_ascii posixpath_join sample_form)
                                 (Some (1280, 800)) false true)).
Proof.
  assert (R : 0 <= current_index sample_window
              < Z.of_nat (List.length (profiles sample_window))) by (simpl; lia).
  assert (Hs : worker_slot sample_window <> Some (Z.to_nat (current_index sample_window)))
    by (vm_compute; discriminate).
  split; [exact R|]. split.
  - destruct (save_changes_frame strip_ascii posixpath_join sample_form sample_window R)
      as [st' [Ha [Hb [Hc [_ [_ [_ [_ [_ Hd]]]]]]]]].
    exists st'. split; [exact Ha|]. split; [exact Hb|]. split; [exact Hc | exact (Hd Hs)].
  - split; [reflexivity|].
    destruct (save_changes_frame strip_ascii posixpath_join sample_form sample_window_running R)
      as [st' [Ha [_ [_ [_ [_ [_ [_ [Hd _]]]]]]]]].
    exists st'. split; [exact Ha | exact (Hd eq_refl)].
Defined.

(** X17 on the sample window, without the library. *)
Lemma launch_without_library_witness :
  worker_running sample_window = false /\
  0 <= current_index sample_window < Z.of_nat (List.length (profiles sample_window)) /\
  exists st',
    _launch strip_ascii posixpath_join false sample_form (1920, 1040) sample_window = Ok st' /\
    profiles st' = [gathered strip_ascii posixpath_join sample_form] /\
    worker st' = None /\
    dialogs st' = ["Camoufox not available"].
Proof.
  assert (R : 0 <= current_index sample_window
              < Z.of_nat (List.length (profiles sample_window))) by (simpl; lia).
  split; [reflexivity|]. split; [exact R|].
  destruct (launch_without_library strip_ascii posixpath_join false sample_form (1920, 1040)
              sample_window eq_refl eq_refl R)
    as [st' [Ha [Hb [_ [_ [_ [Hc [_ [_ Hd]]]]]]]]].
  assert (Hs : worker_slot sample_window <> Some (Z.to_nat (current_index sample_window)))
    by (vm_compute; discriminate).
  exists st'. split; [exact Ha|]. split; [exact Hb|]. split; [exact (Hc Hs) | exact Hd].
Defined.

(** X18 on a window whose only profile is already named Profile 2. *)
Lemma new_profile_may_repeat_a_name_witness :
  map name (profiles (_new_profile posixpath_join sample_window_named)) =
    [JStr "Profile 2"; JStr "Profile 2"] /\
  ~ NoDup (map name (profiles (_new_profile posixpath_join sample_window_named))).
Proof.
  split; [reflexivity|].
  apply (new_profile_may_repeat_a_name posixpath_join sample_window_named
           (mkProfile (JStr "Profile 2") 1280 800 false (JStr "/data/two") false
                      ProxyConfig_default)).
  - left. reflexivity.
  - reflexivity.
Defined.

(** X19 on the quiet environment: two sleeps before the stop is seen. *)
Lemma idle_sleeps_until_stop_witness :
  stop_requested (quiet_env 2) 2 = true /\
  idle (quiet_env 2) 3 0 = Some ([Call Csleep; Call Csleep], Returns tt).
Proof.
  split; [reflexivity|].
  apply (idle_sleeps_until_stop (quiet_env 2) 2).
  - intros j Hj. destruct j as [|[|j]]; [| |lia]; (split; [reflexivity|]);
      exists tt; reflexivity.
  - reflexivity.
  - lia.
Defined.

(** X20 on the sample window: a launch with the first form, the end of the
    session, and a save with the second form. *)
Lemma save_writes_into_the_worker_witness :
  worker_running sample_window = false /\
  0 <= current_index sample_window < Z.of_nat (List.length (profiles sample_window)) /\
  exists st1 st2,
    _launch strip_ascii posixpath_join true sample_form (1920, 1040) sample_window = Ok st1 /\
    worker st1 = Some (mkWorker (gathered strip_ascii posixpath_join sample_form)
                                (Some (1280, 800)) false true) /\
    _save_changes strip_ascii posixpath_join sample_form_edited
                  (_on_stopped "Session closed" (thread_finished st1)) = Ok st2 /\
    worker st2 = Some (mkWorker (gathered strip_ascii posixpath_join sample_form_edited)
                                (Some (1280, 800)) false false) /\
    viewport_width (gathered strip_ascii posixpath_join sample_form_edited) = 1024 /\
    nth_error (profiles st2) 0 = Some (gathered strip_ascii posixpath_join sample_form_edited).
Proof.
  assert (R : 0 <= current_index sample_window
              < Z.of_nat (List.length (profiles sample_window))) by (simpl; lia).
  split; [reflexivity|]. split; [exact R|].
  eexists.
  destruct (save_writes_into_the_worker strip_ascii posixpath_join true sample_form
              sample_form_edited (1920, 1040) "Session closed" sample_window _
              eq_refl eq_refl R eq_refl) as [st2 [Ha [Hb Hc]]].
  exists st2. split; [reflexivity|]. split; [reflexivity|]. split; [exact Ha|].
  split; [exact Hb|]. split; [reflexivity | exact Hc].
Defined.
